(** * print_all_pdfs: 2-up front/back imposition

    A shallow embedding of [print_all_pdfs.py].  Python integers are [Z];
    Python lists are [list]; a loop that appends to a list is a left fold
    whose accumulator is the list; a call that can raise returns a [result].

    The quotient [total_pages / 2] is Python's true division.  The functions
    at top level take it as the exact rational in [Q], with [math.ceil] as
    [Qceiling]: they are the script's functions on the page count of a
    document, [len(reader.pages)].  Module [Float53] models the binary64
    rounding of that quotient, and module [Binary64] gives the engine's
    functions as the script computes them on any integer, [OverflowError]
    included; the two agree for every magnitude up to [2^53]. *)

From Stdlib Require Import String.
From Stdlib Require Import ZArith QArith Qround List Bool Lia.
From Stdlib Require Import Sorted Permutation Finite.
Import ListNotations.
Open Scope Z_scope.

(** ** Python primitives *)

Module Py.

(** [len(l)] *)
Definition len {A : Type} (l : list A) : Z := Z.of_nat (length l).

(** [a / b] on integers (true division), as an exact rational. *)
Definition truediv (a b : Z) : Q := (inject_Z a / inject_Z b)%Q.

(** [math.ceil] *)
Definition math_ceil (x : Q) : Z := Qceiling x.

(** The iterator behind [range]: [count] values from [start], [step] apart. *)
Fixpoint range_from (count : nat) (start step : Z) : list Z :=
  match count with
  | O => []
  | S c => start :: range_from c (start + step) step
  end.

(** [range(start, stop, step)] for a positive [step]: the values
    [start, start + step, ...] strictly below [stop]. *)
Definition range (start stop step : Z) : list Z :=
  range_from (Z.to_nat ((stop - start + step - 1) / step)) start step.

(** Exceptions raised on the paths that are modelled. *)
Inductive exn : Type :=
| IndexError
| SystemExit (code : Z)
| Win32Error.

Inductive result (A : Type) : Type :=
| Ok (a : A)
| Raise (e : exn).
Arguments Ok {A} a.
Arguments Raise {A} e.

Definition bind {A B : Type} (r : result A) (k : A -> result B) : result B :=
  match r with
  | Ok a => k a
  | Raise e => Raise e
  end.

(** [l[i]]: a negative index counts from the end; out of range raises. *)
Definition getitem {A : Type} (l : list A) (i : Z) : result A :=
  let j := if i <? 0 then len l + i else i in
  if (j <? 0) || (len l <=? j) then Raise IndexError
  else match nth_error l (Z.to_nat j) with
       | Some a => Ok a
       | None => Raise IndexError
       end.

End Py.

Notation "x <- r ;; k" := (Py.bind r (fun x => k))
  (at level 61, r at next level, right associativity).

(** ** Imposition engine (lines 58-108 of the script) *)

(** [num_physical_sheets]: [math.ceil(total_pages / 2)], with the exact
    quotient: the value the script computes for every [total_pages] of
    magnitude up to [2^53] (lemma [ceil_truediv2_small]), the page count of
    a document among them.  [Binary64.num_physical_sheets] is the function
    on any integer. *)
Definition num_physical_sheets (total_pages : Z) : Z :=
  Py.math_ceil (Py.truediv total_pages 2).

(** One iteration of the loop body shared by [get_front_pages] and
    [get_back_pages]: append [p1], then [p2] when it exists. *)
Definition append_sheet (total_pages : Z) (pages : list Z) (sheet_idx : Z)
  : list Z :=
  let p1 := sheet_idx * 2 + 1 in
  let p2 := p1 + 1 in
  let pages := pages ++ [p1] in
  if p2 <=? total_pages then pages ++ [p2] else pages.

(** [get_front_pages]: sheets 0, 2, 4, ... (0-based). *)
Definition get_front_pages (total_pages : Z) : list Z :=
  let num_sheets := num_physical_sheets total_pages in
  fold_left (append_sheet total_pages) (Py.range 0 num_sheets 2) [].

(** [get_back_pages]: sheets 1, 3, 5, ... (0-based). *)
Definition get_back_pages (total_pages : Z) : list Z :=
  let num_sheets := num_physical_sheets total_pages in
  fold_left (append_sheet total_pages) (Py.range 1 num_sheets 2) [].

(** [needs_back_blank] *)
Definition needs_back_blank (total_pages : Z) : bool :=
  num_physical_sheets total_pages mod 2 =? 1.

(** The sheet count [print_pdf] prints for a pass (line 248):
    [math.ceil(len(pages) / 2) + (1 if append_blank else 0)]. *)
Definition output_sheets (pages : list Z) (append_blank : bool) : Z :=
  Py.math_ceil (Py.truediv (Py.len pages) 2) + (if append_blank then 1 else 0).

(** ** Sheet renderer (lines 111-157) *)

(** A page of the source document: its media box and the identity of its
    content stream. *)
Record Page : Type := mkPage {
  mediabox_width : Q;
  mediabox_height : Q;
  page_id : Z
}.

(** An output page: a canvas and the source pages merged onto it, each with
    the translation it was merged under. *)
Record Sheet : Type := mkSheet {
  sheet_width : Q;
  sheet_height : Q;
  merged : list (Page * (Q * Q))
}.

(** [PageObject.create_blank_page(width, height)] *)
Definition create_blank_page (width height : Q) : Sheet :=
  mkSheet width height [].

(** [sheet.merge_transformed_page(page, Transformation().translate(tx, ty))] *)
Definition merge_transformed_page (sheet : Sheet) (page : Page) (tx ty : Q)
  : Sheet :=
  mkSheet (sheet_width sheet) (sheet_height sheet)
          (merged sheet ++ [(page, (tx, ty))]).

(** [make_2up_sheet] *)
Definition make_2up_sheet (left_page : Page) (right_page : option Page)
  : Sheet :=
  let src_w := mediabox_width left_page in
  let src_h := mediabox_height left_page in
  let sheet_w := (src_w * 2)%Q in
  let sheet_h := src_h in
  let sheet := create_blank_page sheet_w sheet_h in
  let sheet := merge_transformed_page sheet left_page 0%Q 0%Q in
  match right_page with
  | Some rp => merge_transformed_page sheet rp src_w 0%Q
  | None => sheet
  end.

(** A [for] loop whose body can raise: the state is threaded through the
    iterations and the first exception ends the loop. *)
Fixpoint for_each {A S : Type} (body : S -> A -> Py.result S) (l : list A)
  (s : S) : Py.result S :=
  match l with
  | [] => Py.Ok s
  | a :: l' => s' <- body s a ;; for_each body l' s'
  end.

(** The body of the pairing loop of [build_print_pdf] (lines 142-146);
    [writer] is the list of pages added so far. *)
Definition add_pair (reader : list Page) (pages : list Z)
  (writer : list Sheet) (i : Z) : Py.result (list Sheet) :=
  pi <- Py.getitem pages i ;;
  left <- Py.getitem reader (pi - 1) ;;
  right <- (if i + 1 <? Py.len pages
            then (pj <- Py.getitem pages (i + 1) ;;
                  rp <- Py.getitem reader (pj - 1) ;;
                  Py.Ok (Some rp))
            else Py.Ok None) ;;
  Py.Ok (writer ++ [make_2up_sheet left right]).

(** [build_print_pdf]: the pages written to the temporary file, in order. *)
Definition build_print_pdf (reader : list Page) (pages : list Z)
  (append_blank : bool) : Py.result (list Sheet) :=
  ref_page <- Py.getitem reader 0 ;;
  let ref_w := mediabox_width ref_page in
  let ref_h := mediabox_height ref_page in
  writer <- for_each (add_pair reader pages) (Py.range 0 (Py.len pages) 2) [] ;;
  Py.Ok (if append_blank
         then writer ++ [create_blank_page (ref_w * 2)%Q ref_h]
         else writer).

(** ** Per-file logic (lines 209-260) *)

(** What [print_pdf] does with one file: it hands a document to
    [send_to_printer], or prints "Nothing to print" and returns. *)
Inductive PassOutput : Type :=
| Submitted (document : list Sheet)
| Skipped.

(** The selection and blank flag [print_pdf] computes for a side
    (lines 219-224). *)
Definition select_pass (total : Z) (side : string) : list Z * bool :=
  if String.eqb side "front"%string
  then (get_front_pages total, false)
  else (get_back_pages total, needs_back_blank total).

(** [print_pdf], from the opened [reader] on. *)
Definition print_pdf (reader : list Page) (side : string)
  : Py.result PassOutput :=
  let total := Py.len reader in
  let num_sheets := num_physical_sheets total in
  let '(pages, append_blank) := select_pass total side in
  match pages with
  | [] =>
      if String.eqb side "back"%string && (1 <=? num_sheets)
      then ref <- Py.getitem reader 0 ;;
           let rw := mediabox_width ref in
           let rh := mediabox_height ref in
           Py.Ok (Submitted [create_blank_page (rw * 2)%Q rh])
      else Py.Ok Skipped
  | _ :: _ =>
      tmp_path <- build_print_pdf reader pages append_blank ;;
      Py.Ok (Submitted tmp_path)
  end.

(** ** The win32 fallback backend (lines 180-194) *)

Module Win32.

(** The part of the system the backend touches. *)
Record World : Type := mkWorld {
  default_printer : option string;
  installed : list string;
  spooled : list (string * string)
}.

(** Code that reads and writes the world and can raise. *)
Definition M (A : Type) : Type := World -> Py.result A * World.

Definition ret {A : Type} (a : A) : M A := fun w => (Py.Ok a, w).

Definition raise {A : Type} (e : Py.exn) : M A := fun w => (Py.Raise e, w).

Definition bind {A B : Type} (m : M A) (k : A -> M B) : M B :=
  fun w =>
    match m w with
    | (Py.Ok a, w') => k a w'
    | (Py.Raise e, w') => (Py.Raise e, w')
    end.

(** [try: body finally: handler]: the handler runs on every exit of the
    body; an exception of the handler replaces the body's outcome. *)
Definition try_finally {A : Type} (body : M A) (handler : M unit) : M A :=
  fun w =>
    let '(r, w1) := body w in
    match handler w1 with
    | (Py.Ok _, w2) => (r, w2)
    | (Py.Raise e, w2) => (Py.Raise e, w2)
    end.

(** [win32print.GetDefaultPrinter()]: raises when no default is set. *)
Definition GetDefaultPrinter : M string :=
  fun w =>
    match default_printer w with
    | Some p => (Py.Ok p, w)
    | None => (Py.Raise Py.Win32Error, w)
    end.

(** [win32print.SetDefaultPrinter(name)]: raises, changing nothing, when
    no printer of that name is installed. *)
Definition SetDefaultPrinter (name : string) : M unit :=
  fun w =>
    if existsb (String.eqb name) (installed w)
    then (Py.Ok tt, mkWorld (Some name) (installed w) (spooled w))
    else (Py.Raise Py.Win32Error, w).

(** What the script cannot see of the machine it runs on: whether pywin32
    can be imported, and what the shell does with a [printto] request. *)
Record Env : Type := mkEnv {
  pywin32_found : bool;
  ShellExecute : string -> string -> string -> M unit
}.

Definition quote : string := String (Ascii.ascii_of_nat 34) EmptyString.

(** [print_via_win32] *)
Definition print_via_win32 (env : Env) (pdf_path printer : string) : M unit :=
  if negb (pywin32_found env) then raise (Py.SystemExit 1)
  else
    bind GetDefaultPrinter (fun original =>
    try_finally
      (bind (SetDefaultPrinter printer) (fun _ =>
       bind (ShellExecute env "printto"%string pdf_path
                          (quote ++ printer ++ quote)%string)
            (fun _ => ret tt)))
      (SetDefaultPrinter original)).

End Win32.

(** ** The binary64 quotient behind [total_pages / 2] *)

Module Float53.

Definition prec : Z := 53.
Definition emax : Z := 1024.

(** A finite double, [mant * 2^expo]. *)
Record dyadic : Type := mkDyadic { mant : Z; expo : Z }.

(** [a / 2^sh] rounded to the nearest integer, ties to even. *)
Definition round_half_even (a sh : Z) : Z :=
  let q := a / 2 ^ sh in
  let r := a mod 2 ^ sh in
  if (2 ^ sh <? 2 * r) || ((2 ^ sh =? 2 * r) && Z.odd q) then q + 1 else q.

(** [n / 2] as Python computes it: the quotient correctly rounded to 53
    significant bits; [None] is [OverflowError]. *)
Definition truediv2 (n : Z) : option dyadic :=
  let a := Z.abs n in
  let bits := if a =? 0 then 0 else Z.log2 a + 1 in
  let sh := Z.max 0 (bits - prec) in
  let m := round_half_even a sh in
  if 2 ^ (emax + 1) <=? m * 2 ^ sh then None
  else Some (mkDyadic (Z.sgn n * m) (sh - 1)).

(** [math.ceil] of a double. *)
Definition ceil (d : dyadic) : Z :=
  if 0 <=? expo d then mant d * 2 ^ expo d
  else - ((- mant d) / 2 ^ (- expo d)).

Definition ceil_truediv2 (n : Z) : option Z := option_map ceil (truediv2 n).

End Float53.

(** ** The imposition engine on any integer (lines 58-108), with the
    binary64 quotient; [None] is the [OverflowError] of [total_pages / 2]. *)

Module Binary64.

(** [num_physical_sheets]: [math.ceil(total_pages / 2)]. *)
Definition num_physical_sheets (total_pages : Z) : option Z :=
  Float53.ceil_truediv2 total_pages.

(** [get_front_pages] *)
Definition get_front_pages (total_pages : Z) : option (list Z) :=
  match num_physical_sheets total_pages with
  | Some num_sheets =>
      Some (fold_left (append_sheet total_pages) (Py.range 0 num_sheets 2) [])
  | None => None
  end.

(** [get_back_pages] *)
Definition get_back_pages (total_pages : Z) : option (list Z) :=
  match num_physical_sheets total_pages with
  | Some num_sheets =>
      Some (fold_left (append_sheet total_pages) (Py.range 1 num_sheets 2) [])
  | None => None
  end.

(** [needs_back_blank] *)
Definition needs_back_blank (total_pages : Z) : option bool :=
  match num_physical_sheets total_pages with
  | Some num_sheets => Some (num_sheets mod 2 =? 1)
  | None => None
  end.

End Binary64.

(** ** The rule of the specification, in its words *)

(** The pages of sheet [s]: [2s + 1], then [2s + 2] when it is a page. *)
Definition sheet_pages (pageCount s : Z) : list Z :=
  [2 * s + 1] ++ (if 2 * s + 2 <=? pageCount then [2 * s + 2] else []).

(** The sheet indices [first, first + 2, ...] strictly below [bound]. *)
Definition sheets_from (first bound : Z) : list Z :=
  map (fun k => first + 2 * Z.of_nat k)
      (seq 0 (Z.to_nat ((bound - first + 1) / 2))).

(** [frontPages]: the concatenation over sheets 0, 2, 4, ... *)
Definition frontPages (pageCount : Z) : list Z :=
  concat (map (sheet_pages pageCount)
              (sheets_from 0 (num_physical_sheets pageCount))).

(** [backPages]: the same over sheets 1, 3, 5, ... *)
Definition backPages (pageCount : Z) : list Z :=
  concat (map (sheet_pages pageCount)
              (sheets_from 1 (num_physical_sheets pageCount))).

(** [p] is a page number of the document. *)
Definition in_document (reader : list Page) (p : Z) : Prop :=
  1 <= p <= Py.len reader.

(** Page [p] (1-based) of the document; [ref] stands in out of range. *)
Definition page_of (reader : list Page) (ref : Page) (p : Z) : Page :=
  nth (Z.to_nat (p - 1)) reader ref.

(** The blank sheet of a document whose first page is [ref]. *)
Definition blank_sheet (ref : Page) : Sheet :=
  create_blank_page (mediabox_width ref * 2)%Q (mediabox_height ref).

(** Selection consumed two elements at a time. *)
Fixpoint pair_up (reader_page : Z -> Page) (selection : list Z) : list Sheet :=
  match selection with
  | [] => []
  | [p] => [make_2up_sheet (reader_page p) None]
  | p :: q :: rest =>
      make_2up_sheet (reader_page p) (Some (reader_page q))
        :: pair_up reader_page rest
  end.

(** The pages [1 .. n]. *)
Definition all_pages (n : Z) : list Z :=
  map Z.of_nat (seq 1 (Z.to_nat n)).

(** The source pages on a document's sheets, sheet by sheet, left first. *)
Definition pages_on (document : list Sheet) : list Page :=
  concat (map (fun sh => map fst (merged sh)) document).

(** ** Further parts of the script *)

(** [find_sumatra] (lines 51-55): the first of [SUMATRA_PATHS] that
    [os.path.isfile] accepts, else [shutil.which("SumatraPDF")]. *)
Fixpoint first_file (isfile : string -> bool) (paths : list string)
  : option string :=
  match paths with
  | [] => None
  | p :: rest => if isfile p then Some p else first_file isfile rest
  end.

Definition find_sumatra (SUMATRA_PATHS : list string)
  (isfile : string -> bool) (which : option string) : option string :=
  match first_file isfile SUMATRA_PATHS with
  | Some p => Some p
  | None => which
  end.

(** [reader.pages[p - 1]] returns for this [p]: Python accepts the indices
    [-len .. len - 1]. *)
Definition indexable (reader : list Page) (p : Z) : bool :=
  (1 - Py.len reader <=? p) && (p <=? Py.len reader).

(** The page [reader.pages[p - 1]] returns; [ref] when it raises. *)
Definition page_at (reader : list Page) (ref : Page) (p : Z) : Page :=
  match Py.getitem reader (p - 1) with
  | Py.Ok page => page
  | Py.Raise _ => ref
  end.

(** Physical sheet [s] (0-based) of the document, as a 2-up sheet. *)
Definition physical_sheet (reader : list Page) (ref : Page) (s : Z) : Sheet :=
  make_2up_sheet
    (page_of reader ref (2 * s + 1))
    (if 2 * s + 2 <=? Py.len reader
     then Some (page_of reader ref (2 * s + 2))
     else None).

(** All pages of the document have the media box of [ref]. *)
Definition same_size (ref : Page) (reader : list Page) : Prop :=
  Forall (fun page => mediabox_width page = mediabox_width ref /\
                      mediabox_height page = mediabox_height ref) reader.

(** ** [print_pdf] and the batch loop with their effects (lines 164-178,
    197-260, 317-318) *)

Module IO.

(** Exceptions met on these paths, beside those of [Py.exn]. *)
Inductive exn : Type :=
| PyExn (e : Py.exn)
| OSError
| PdfReadError.

(** What [except Exception] catches: everything here but [SystemExit]. *)
Definition is_Exception (e : exn) : bool :=
  match e with
  | PyExn (Py.SystemExit _) => false
  | _ => true
  end.

Inductive outcome (A : Type) : Type :=
| Done (a : A)
| Raised (e : exn).
Arguments Done {A} a.
Arguments Raised {A} e.

(** The printers and spooler, and the temporary files with their pages. *)
Record System : Type := mkSystem {
  win : Win32.World;
  files : list (string * list Sheet)
}.

Definition M (A : Type) : Type := System -> outcome A * System.

Definition ret {A : Type} (a : A) : M A := fun s => (Done a, s).

Definition raise {A : Type} (e : exn) : M A := fun s => (Raised e, s).

Definition bind {A B : Type} (m : M A) (k : A -> M B) : M B :=
  fun s =>
    match m s with
    | (Done a, s') => k a s'
    | (Raised e, s') => (Raised e, s')
    end.

(** [try: body finally: handler] *)
Definition try_finally {A : Type} (body : M A) (handler : M unit) : M A :=
  fun s =>
    let '(r, s1) := body s in
    match handler s1 with
    | (Done _, s2) => (r, s2)
    | (Raised e, s2) => (Raised e, s2)
    end.

(** [try: body except <catches>: pass] *)
Definition try_except_pass (catches : exn -> bool) (body : M unit) : M unit :=
  fun s =>
    match body s with
    | (Done u, s') => (Done u, s')
    | (Raised e, s') => if catches e then (Done tt, s') else (Raised e, s')
    end.

(** A win32 call: it acts on the printers and spooler only. *)
Definition lift_win {A : Type} (m : Win32.M A) : M A :=
  fun s =>
    match m (win s) with
    | (Py.Ok a, w) => (Done a, mkSystem w (files s))
    | (Py.Raise e, w) => (Raised (PyExn e), mkSystem w (files s))
    end.

(** A computation without effects. *)
Definition lift_result {A : Type} (r : Py.result A) : M A :=
  match r with
  | Py.Ok a => ret a
  | Py.Raise e => raise (PyExn e)
  end.

(** How [writer.write(tmp); tmp.close()] ends: the pages are in the file, or
    it raises and leaves the file with what had been written. *)
Inductive written : Type :=
| Written
| WriteFailed (partial : list Sheet).

(** What the script cannot see: the win32 side; what [PdfReader] makes of a
    path ([None]: it raises); what the SumatraPDF process does and returns
    ([subprocess.run] raises when it cannot start it); the name
    [NamedTemporaryFile] picks beside the existing ones ([None]: it raises
    and creates nothing); how writing the pages to that file ends; and
    whether the system refuses to remove an existing file (on Windows, one
    that another process still holds open). *)
Record Env : Type := mkEnv {
  win32 : Win32.Env;
  PdfReader : string -> option (list Page);
  subprocess_run : list string -> Win32.World -> outcome Z * Win32.World;
  NamedTemporaryFile : list string -> option string;
  writer_write : string -> list Sheet -> written;
  unlink_refused : string -> System -> bool
}.

Definition open_reader (env : Env) (pdf_path : string) : M (list Page) :=
  match PdfReader env pdf_path with
  | Some reader => ret reader
  | None => raise PdfReadError
  end.

(** [tmp = NamedTemporaryFile(suffix=".pdf", delete=False);
     writer.write(tmp); tmp.close()], giving [tmp.name].  The file is
    created first and kept ([delete=False]) also when the write raises. *)
Definition write_temp (env : Env) (writer : list Sheet) : M string :=
  fun s =>
    match NamedTemporaryFile env (map fst (files s)) with
    | None => (Raised OSError, s)
    | Some name =>
        match writer_write env name writer with
        | Written =>
            (Done name, mkSystem (win s) ((name, writer) :: files s))
        | WriteFailed partial =>
            (Raised OSError, mkSystem (win s) ((name, partial) :: files s))
        end
    end.

Definition named (path : string) (file : string * list Sheet) : bool :=
  String.eqb path (fst file).

(** [os.unlink(path)]: raises when there is no such file, and when the
    system refuses to remove it; the file is then still there. *)
Definition unlink (env : Env) (path : string) : M unit :=
  fun s =>
    if existsb (named path) (files s) && negb (unlink_refused env path s)
    then (Done tt,
          mkSystem (win s) (filter (fun f => negb (named path f)) (files s)))
    else (Raised OSError, s).

(** The system after [try: os.unlink(path) except ...: pass]. *)
Definition after_unlink (env : Env) (path : string) (s : System) : System :=
  if existsb (named path) (files s) && negb (unlink_refused env path s)
  then mkSystem (win s) (filter (fun f => negb (named path f)) (files s))
  else s.

(** [print_via_sumatra]: the return code only selects the message
    printed. *)
Definition print_via_sumatra (env : Env) (pdf_path printer sumatra_exe : string)
  : M unit :=
  let cmd := [sumatra_exe; "-print-to"; printer;
              "-print-settings"; "monochrome,fit"; pdf_path]%string in
  bind (fun s => let '(r, w) := subprocess_run env cmd (win s) in
                 (r, mkSystem w (files s)))
       (fun returncode => ret tt).

(** [send_to_printer]: [if sumatra_exe:] fails for [None] and for the empty
    string. *)
Definition send_to_printer (env : Env) (pdf_path printer : string)
  (sumatra_exe : option string) : M unit :=
  match sumatra_exe with
  | Some exe =>
      if String.eqb exe EmptyString
      then lift_win (Win32.print_via_win32 (win32 env) pdf_path printer)
      else print_via_sumatra env pdf_path printer exe
  | None => lift_win (Win32.print_via_win32 (win32 env) pdf_path printer)
  end.

(** [print_pdf], whole. *)
Definition print_pdf (env : Env) (pdf_path side printer : string)
  (sumatra_exe : option string) : M unit :=
  bind (open_reader env pdf_path) (fun reader =>
    let total := Py.len reader in
    let num_sheets := num_physical_sheets total in
    let '(pages, append_blank) := select_pass total side in
    match pages with
    | [] =>
        if String.eqb side "back"%string && (1 <=? num_sheets)
        then
          bind (lift_result (Py.getitem reader 0)) (fun ref =>
            let rw := mediabox_width ref in
            let rh := mediabox_height ref in
            bind (write_temp env [create_blank_page (rw * 2)%Q rh])
              (fun tmp =>
                 try_finally
                   (send_to_printer env tmp printer sumatra_exe)
                   (try_except_pass (fun _ => true) (unlink env tmp))))
        else ret tt
    | _ :: _ =>
        bind (bind (lift_result (build_print_pdf reader pages append_blank))
                   (write_temp env))
          (fun tmp_path =>
             try_finally
               (send_to_printer env tmp_path printer sumatra_exe)
               (try_except_pass is_Exception (unlink env tmp_path)))
    end).

(** The loop of [main] over the files found (lines 317-318). *)
Fixpoint main_loop (env : Env) (pdf_files : list string)
  (side printer : string) (sumatra_exe : option string) : M unit :=
  match pdf_files with
  | [] => ret tt
  | pdf_path :: rest =>
      bind (print_pdf env pdf_path side printer sumatra_exe)
           (fun _ => main_loop env rest side printer sumatra_exe)
  end.

End IO.

(** * Properties *)

Example front5 : get_front_pages 5 = [1; 2; 5].
Proof. reflexivity. Qed.

Example back5 : get_back_pages 5 = [3; 4].
Proof. reflexivity. Qed.

Example sheets_neg3 : num_physical_sheets (-3) = -1.
Proof. reflexivity. Qed.

(** ** Arithmetic of the sheet count *)

Lemma math_ceil_truediv_2 (n : Z) :
  Py.math_ceil (Py.truediv n 2) = (n + 1) / 2.
Proof.
  unfold Py.math_ceil, Py.truediv, Qceiling, Qfloor, Qdiv, Qmult, Qinv, Qopp.
  cbn.
  Z.div_mod_to_equations; lia.
Qed.

Lemma num_physical_sheets_eq (n : Z) : num_physical_sheets n = (n + 1) / 2.
Proof. apply math_ceil_truediv_2. Qed.

(** The sheet count is the least number of sheets that holds the pages. *)
Lemma num_physical_sheets_ceiling (n : Z) :
  n <= 2 * num_physical_sheets n /\ 2 * (num_physical_sheets n - 1) < n.
Proof. rewrite num_physical_sheets_eq. Z.div_mod_to_equations; lia. Qed.

(** ** The loops as concatenations *)

Lemma append_sheet_app (n : Z) (pages : list Z) (s : Z) :
  append_sheet n pages s = pages ++ sheet_pages n s.
Proof.
  unfold append_sheet, sheet_pages.
  replace (s * 2 + 1 + 1) with (2 * s + 2) by lia.
  replace (s * 2 + 1) with (2 * s + 1) by lia.
  destruct (2 * s + 2 <=? n); simpl; [ rewrite <- app_assoc | ]; reflexivity.
Qed.

Lemma fold_append_sheet (n : Z) (l : list Z) (acc : list Z) :
  fold_left (append_sheet n) l acc = acc ++ concat (map (sheet_pages n) l).
Proof.
  revert acc. induction l as [ | s l IH ]; intros acc; simpl.
  - now rewrite app_nil_r.
  - now rewrite IH, append_sheet_app, <- app_assoc.
Qed.

Lemma range_from_map (c : nat) (a : Z) :
  Py.range_from c a 2 = map (fun k => a + 2 * Z.of_nat k) (seq 0 c).
Proof.
  revert a. induction c as [ | c IH ]; intros a.
  - reflexivity.
  - cbn [Py.range_from seq map]. f_equal; [ lia | ].
    rewrite IH, <- seq_shift, map_map.
    apply map_ext; intros k; lia.
Qed.

Lemma range_sheets_from (a b : Z) : Py.range a b 2 = sheets_from a b.
Proof.
  unfold Py.range, sheets_from. rewrite range_from_map.
  now replace (b - a + 2 - 1) with (b - a + 1) by lia.
Qed.

Lemma in_range_from (c : nat) (a s : Z) :
  In s (Py.range_from c a 2) <->
  exists k, 0 <= k < Z.of_nat c /\ s = a + 2 * k.
Proof.
  rewrite range_from_map, in_map_iff. split.
  - intros (k & <- & Hk). apply in_seq in Hk. exists (Z.of_nat k). lia.
  - intros (k & Hk & ->). exists (Z.to_nat k). split; [ lia | ].
    apply in_seq. lia.
Qed.

Lemma in_range (a b s : Z) :
  In s (Py.range a b 2) <-> a <= s < b /\ (s - a) mod 2 = 0.
Proof.
  unfold Py.range. rewrite in_range_from. split.
  - intros (k & Hk & ->).
    assert (0 < (b - a + 2 - 1) / 2) by lia.
    Z.div_mod_to_equations; lia.
  - intros (Hs & Hm). exists ((s - a) / 2).
    Z.div_mod_to_equations; lia.
Qed.

Lemma front_pages_spec (n : Z) : get_front_pages n = frontPages n.
Proof.
  unfold get_front_pages, frontPages.
  now rewrite fold_append_sheet, range_sheets_from.
Qed.

Lemma back_pages_spec (n : Z) : get_back_pages n = backPages n.
Proof.
  unfold get_back_pages, backPages.
  now rewrite fold_append_sheet, range_sheets_from.
Qed.

(** ** Membership *)

Lemma in_sheet_pages (n s p : Z) :
  In p (sheet_pages n s) <-> p = 2 * s + 1 \/ (p = 2 * s + 2 /\ p <= n).
Proof.
  unfold sheet_pages. destruct (Z.leb_spec (2 * s + 2) n); cbn [app In]; lia.
Qed.

Lemma in_selection (n a b p : Z) :
  In p (concat (map (sheet_pages n) (Py.range a b 2))) <->
  exists s, (a <= s < b /\ (s - a) mod 2 = 0) /\
            (p = 2 * s + 1 \/ (p = 2 * s + 2 /\ p <= n)).
Proof.
  rewrite <- flat_map_concat_map, in_flat_map.
  split; intros (s & Hs & Hp); exists s.
  - now rewrite <- in_range, <- in_sheet_pages.
  - now rewrite in_range, in_sheet_pages.
Qed.

Lemma in_front_pages (n p : Z) :
  0 <= n ->
  In p (get_front_pages n) <-> 1 <= p <= n /\ ((p - 1) / 2) mod 2 = 0.
Proof.
  intros Hn. unfold get_front_pages.
  rewrite fold_append_sheet, app_nil_l, in_selection, num_physical_sheets_eq.
  split.
  - intros (s & (Hs & Hm) & Hp).
    replace ((p - 1) / 2) with s by (Z.div_mod_to_equations; lia).
    split; [ Z.div_mod_to_equations; lia | ].
    now rewrite Z.sub_0_r in Hm.
  - intros (Hp & Hm). exists ((p - 1) / 2). rewrite Z.sub_0_r.
    repeat split; try assumption; Z.div_mod_to_equations; lia.
Qed.

Lemma in_back_pages (n p : Z) :
  0 <= n ->
  In p (get_back_pages n) <-> 1 <= p <= n /\ ((p - 1) / 2) mod 2 = 1.
Proof.
  intros Hn. unfold get_back_pages.
  rewrite fold_append_sheet, app_nil_l, in_selection, num_physical_sheets_eq.
  split.
  - intros (s & (Hs & Hm) & Hp).
    replace ((p - 1) / 2) with s by (Z.div_mod_to_equations; lia).
    split; Z.div_mod_to_equations; lia.
  - intros (Hp & Hm). exists ((p - 1) / 2).
    repeat split; Z.div_mod_to_equations; lia.
Qed.

(** ** Order *)

Lemma selection_sorted (n : Z) (c : nat) (a : Z) :
  StronglySorted Z.lt (concat (map (sheet_pages n) (Py.range_from c a 2))) /\
  Forall (fun p => 2 * a + 1 <= p)
         (concat (map (sheet_pages n) (Py.range_from c a 2))).
Proof.
  revert a. induction c as [ | c IH ]; intros a; cbn [Py.range_from map concat].
  - split; constructor.
  - destruct (IH (a + 2)) as [Hs Hf].
    assert (Hf' : Forall (fun p => 2 * a + 2 < p)
                    (concat (map (sheet_pages n) (Py.range_from c (a + 2) 2)))).
    { eapply Forall_impl; [ | exact Hf ]. cbv beta. intros; lia. }
    unfold sheet_pages at 1 3.
    destruct (2 * a + 2 <=? n); cbn [app]; split.
    + constructor; [ constructor; [ exact Hs | ] | ].
      * eapply Forall_impl; [ | exact Hf' ]. cbv beta. intros; lia.
      * constructor; [ lia | ].
        eapply Forall_impl; [ | exact Hf' ]. cbv beta. intros; lia.
    + repeat constructor; try lia.
      eapply Forall_impl; [ | exact Hf' ]. cbv beta. intros; lia.
    + constructor; [ exact Hs | ].
      eapply Forall_impl; [ | exact Hf' ]. cbv beta. intros; lia.
    + constructor; [ lia | ].
      eapply Forall_impl; [ | exact Hf' ]. cbv beta. intros; lia.
Qed.

Lemma sorted_lt_NoDup (l : list Z) : StronglySorted Z.lt l -> NoDup l.
Proof.
  induction 1 as [ | x l Hs IH Hf ]; constructor; [ | exact IH ].
  intros Hin. rewrite Forall_forall in Hf. specialize (Hf x Hin). lia.
Qed.

Lemma front_pages_sorted (n : Z) : StronglySorted Z.lt (get_front_pages n).
Proof.
  unfold get_front_pages. rewrite fold_append_sheet, app_nil_l.
  apply selection_sorted.
Qed.

Lemma back_pages_sorted (n : Z) : StronglySorted Z.lt (get_back_pages n).
Proof.
  unfold get_back_pages. rewrite fold_append_sheet, app_nil_l.
  apply selection_sorted.
Qed.

(** ** Sizes *)

Lemma selection_length (n : Z) (c : nat) (a : Z) :
  2 * (a + 2 * (Z.of_nat c - 1)) + 1 <= n ->
  (0 < c)%nat ->
  2 * Z.of_nat c - 1
    <= Py.len (concat (map (sheet_pages n) (Py.range_from c a 2)))
    <= 2 * Z.of_nat c.
Proof.
  unfold Py.len. revert a. induction c as [ | c IH ]; intros a Hlast Hc.
  - lia.
  - cbn [Py.range_from map concat]. rewrite length_app.
    destruct c as [ | c ].
    + cbn [Py.range_from map concat length]. unfold sheet_pages.
      destruct (2 * a + 2 <=? n); cbn [app length]; lia.
    + specialize (IH (a + 2)).
      unfold sheet_pages at 1 3.
      destruct (Z.leb_spec (2 * a + 2) n); cbn [app length]; lia.
Qed.

Lemma selection_half (n a b : Z) :
  0 <= n -> 0 <= a -> b <= num_physical_sheets n ->
  Py.math_ceil
    (Py.truediv (Py.len (concat (map (sheet_pages n) (Py.range a b 2)))) 2)
  = Z.max 0 ((b - a + 1) / 2).
Proof.
  intros Hn Ha Hb. rewrite math_ceil_truediv_2. unfold Py.range.
  rewrite num_physical_sheets_eq in Hb.
  replace (b - a + 2 - 1) with (b - a + 1) by lia.
  destruct (Z.to_nat ((b - a + 1) / 2)) as [ | c ] eqn:E.
  - cbn. lia.
  - assert (Hl := selection_length n (S c) a).
    rewrite <- E in Hl.
    assert (0 < (b - a + 1) / 2) by lia.
    rewrite Z2Nat.id in Hl by lia.
    assert (2 * (a + 2 * ((b - a + 1) / 2 - 1)) + 1 <= n)
      by (Z.div_mod_to_equations; lia).
    specialize (Hl ltac:(assumption) ltac:(lia)).
    rewrite <- E. 
    set (L := Py.len _) in *.
    Z.div_mod_to_equations; lia.
Qed.

Lemma front_half (n : Z) :
  0 <= n ->
  Py.math_ceil (Py.truediv (Py.len (get_front_pages n)) 2)
  = (num_physical_sheets n + 1) / 2.
Proof.
  intros Hn. unfold get_front_pages.
  rewrite fold_append_sheet, app_nil_l, selection_half by lia.
  pose proof (num_physical_sheets_ceiling n).
  rewrite Z.sub_0_r. Z.div_mod_to_equations; lia.
Qed.

Lemma back_half (n : Z) :
  0 <= n ->
  Py.math_ceil (Py.truediv (Py.len (get_back_pages n)) 2)
  = num_physical_sheets n / 2.
Proof.
  intros Hn. unfold get_back_pages.
  rewrite fold_append_sheet, app_nil_l, selection_half by lia.
  pose proof (num_physical_sheets_ceiling n).
  replace (num_physical_sheets n - 1 + 1) with (num_physical_sheets n) by lia.
  Z.div_mod_to_equations; lia.
Qed.

(** ** The pages [1 .. n] *)

Lemma in_all_pages (n p : Z) : In p (all_pages n) <-> 1 <= p <= n.
Proof.
  unfold all_pages. rewrite in_map_iff. split.
  - intros (k & <- & Hk). apply in_seq in Hk. lia.
  - intros Hp. exists (Z.to_nat p). split; [ lia | apply in_seq; lia ].
Qed.

Lemma all_pages_NoDup (n : Z) : NoDup (all_pages n).
Proof.
  unfold all_pages. apply Injective_map_NoDup; [ | apply seq_NoDup ].
  intros x y H. lia.
Qed.

Lemma all_pages_len (n : Z) : 0 <= n -> Py.len (all_pages n) = n.
Proof.
  intros Hn. unfold Py.len, all_pages. rewrite length_map, length_seq. lia.
Qed.

Lemma front_back_disjoint (n p : Z) :
  0 <= n -> In p (get_front_pages n) -> ~ In p (get_back_pages n).
Proof.
  intros Hn Hf Hb.
  apply in_front_pages in Hf; [ | exact Hn ].
  apply in_back_pages in Hb; [ | exact Hn ]. lia.
Qed.

Lemma front_back_NoDup (n : Z) :
  0 <= n -> NoDup (get_front_pages n ++ get_back_pages n).
Proof.
  intros Hn. apply NoDup_app.
  - apply sorted_lt_NoDup, front_pages_sorted.
  - apply sorted_lt_NoDup, back_pages_sorted.
  - intros p. now apply front_back_disjoint.
Qed.

Lemma in_front_or_back (n p : Z) :
  0 <= n ->
  In p (get_front_pages n) \/ In p (get_back_pages n) <-> 1 <= p <= n.
Proof.
  intros Hn. rewrite in_front_pages, in_back_pages by exact Hn.
  pose proof (Z.mod_pos_bound ((p - 1) / 2) 2). lia.
Qed.

Lemma front_back_permutation (n : Z) :
  0 <= n -> Permutation (get_front_pages n ++ get_back_pages n) (all_pages n).
Proof.
  intros Hn. apply NoDup_Permutation.
  - now apply front_back_NoDup.
  - apply all_pages_NoDup.
  - intros p. now rewrite in_app_iff, in_front_or_back, in_all_pages.
Qed.

Lemma range_from_sorted (c : nat) (a : Z) :
  StronglySorted Z.lt (Py.range_from c a 2) /\
  Forall (fun s => a <= s) (Py.range_from c a 2).
Proof.
  revert a. induction c as [ | c IH ]; intros a; cbn [Py.range_from].
  - split; constructor.
  - destruct (IH (a + 2)) as [Hs Hf]. split; constructor; try lia.
    + exact Hs.
    + eapply Forall_impl; [ | exact Hf ]. cbv beta. intros; lia.
    + eapply Forall_impl; [ | exact Hf ]. cbv beta. intros; lia.
Qed.

Lemma sheets_from_spec (a b : Z) :
  StronglySorted Z.lt (sheets_from a b) /\
  (forall s, In s (sheets_from a b) <-> a <= s < b /\ (s - a) mod 2 = 0).
Proof.
  rewrite <- range_sheets_from. split.
  - apply range_from_sorted.
  - intros s. apply in_range.
Qed.

(** C4.  For every page count, [get_front_pages] is the concatenation, over
    the sheet indices 0, 2, 4, ... strictly below [num_physical_sheets], in
    ascending order, of [2s + 1] followed by [2s + 2] when
    [2s + 2 <= pageCount]; [get_back_pages] is the same over 1, 3, 5, ...;
    and both sequences are strictly increasing. *)
Theorem selections_follow_sheets (pageCount : Z) :
  let sheets := num_physical_sheets pageCount in
  get_front_pages pageCount
    = concat (map (sheet_pages pageCount) (sheets_from 0 sheets))
  /\ get_back_pages pageCount
    = concat (map (sheet_pages pageCount) (sheets_from 1 sheets))
  /\ (forall s, In s (sheets_from 0 sheets) <-> 0 <= s < sheets /\ s mod 2 = 0)
  /\ (forall s, In s (sheets_from 1 sheets) <-> 1 <= s < sheets /\ s mod 2 = 1)
  /\ StronglySorted Z.lt (sheets_from 0 sheets)
  /\ StronglySorted Z.lt (sheets_from 1 sheets)
  /\ (forall s, sheet_pages pageCount s
                = [2 * s + 1] ++
                  (if 2 * s + 2 <=? pageCount then [2 * s + 2] else []))
  /\ StronglySorted Z.lt (get_front_pages pageCount)
  /\ StronglySorted Z.lt (get_back_pages pageCount).
Proof.
  cbv zeta. repeat match goal with |- _ /\ _ => split end.
  - apply front_pages_spec.
  - apply back_pages_spec.
  - intros s. rewrite (proj2 (sheets_from_spec 0 _)), Z.sub_0_r. reflexivity.
  - intros s. rewrite (proj2 (sheets_from_spec 1 _)).
    split; intros [H1 H2]; split; try assumption;
      Z.div_mod_to_equations; lia.
  - apply sheets_from_spec.
  - apply sheets_from_spec.
  - reflexivity.
  - apply front_pages_sorted.
  - apply back_pages_sorted.
Qed.

Lemma back_pages_nil_iff (n : Z) :
  0 <= n -> get_back_pages n = [] <-> n <= 2.
Proof.
  intros Hn. split.
  - intros He. destruct (Z_le_gt_dec n 2) as [ | Hgt ]; [ assumption | ].
    assert (Hin : In 3 (get_back_pages n))
      by (apply in_back_pages; [ exact Hn | split; [ lia | reflexivity ] ]).
    rewrite He in Hin. destruct Hin.
  - intros Hle. destruct (get_back_pages n) as [ | p l ] eqn:E;
      [ reflexivity | ].
    assert (Hin : In p (get_back_pages n)) by (rewrite E; now left).
    apply in_back_pages in Hin; [ | exact Hn ].
    exfalso. Z.div_mod_to_equations; lia.
Qed.

Lemma len_nil_inv {A : Type} (l : list A) : Py.len l <= 0 -> l = [].
Proof. destruct l; [ reflexivity | unfold Py.len; cbn [length]; lia ]. Qed.

(** C9.  For every page count [pageCount >= 0], [get_back_pages] is empty
    exactly when [pageCount <= 2]; [num_physical_sheets pageCount >= 1] is
    [pageCount >= 1]; on the empty-back domain the test
    [num_sheets >= 1] that [print_pdf] branches on has the value of
    [needs_back_blank]; and there [print_pdf] submits the blank-only sheet
    exactly when the blank is owed, and skips the pass otherwise. *)
Theorem empty_back_blank_when_owed (pageCount : Z) :
  0 <= pageCount ->
  (get_back_pages pageCount = [] <-> pageCount <= 2)
  /\ (1 <= num_physical_sheets pageCount <-> 1 <= pageCount)
  /\ (get_back_pages pageCount = [] ->
      (1 <=? num_physical_sheets pageCount) = needs_back_blank pageCount)
  /\ (forall reader,
        Py.len reader = pageCount -> get_back_pages pageCount = [] ->
        print_pdf reader "back"
        = Py.Ok (if needs_back_blank pageCount
                 then match reader with
                      | ref :: _ =>
                          Submitted [create_blank_page
                                       (mediabox_width ref * 2)%Q
                                       (mediabox_height ref)]
                      | [] => Skipped
                      end
                 else Skipped)).
Proof.
  intros Hn. pose proof (back_pages_nil_iff pageCount Hn) as Hnil.
  repeat match goal with |- _ /\ _ => split end.
  - apply Hnil.
  - rewrite num_physical_sheets_eq. Z.div_mod_to_equations; lia.
  - intros He. apply Hnil in He. unfold needs_back_blank.
    assert (H : pageCount = 0 \/ pageCount = 1 \/ pageCount = 2) by lia.
    destruct H as [ -> | [ -> | -> ] ]; reflexivity.
  - intros reader Hlen He. apply Hnil in He. subst pageCount.
    destruct reader as [ | a [ | b [ | c reader ] ] ].
    + reflexivity.
    + reflexivity.
    + reflexivity.
    + exfalso. unfold Py.len in He. cbn [length] in He. lia.
Qed.

Lemma empty_back_blank_when_owed_witness :
  0 <= 2
  /\ (get_back_pages 2 = [] <-> 2 <= 2)
  /\ (1 <= num_physical_sheets 2 <-> 1 <= 2)
  /\ (get_back_pages 2 = [] ->
      (1 <=? num_physical_sheets 2) = needs_back_blank 2)
  /\ (forall reader,
        Py.len reader = 2 -> get_back_pages 2 = [] ->
        print_pdf reader "back"
        = Py.Ok (if needs_back_blank 2
                 then match reader with
                      | ref :: _ =>
                          Submitted [create_blank_page
                                       (mediabox_width ref * 2)%Q
                                       (mediabox_height ref)]
                      | [] => Skipped
                      end
                 else Skipped)).
Proof. split; [ lia | apply (empty_back_blank_when_owed 2); lia ]. Defined.

(** ** The sheet renderer *)

Lemma list_ind2 {A : Type} (P : list A -> Prop) :
  P [] -> (forall x, P [x]) -> (forall x y l, P l -> P (x :: y :: l)) ->
  forall l, P l.
Proof.
  intros H0 H1 H2 l.
  enough (P l /\ forall x, P (x :: l)) by tauto.
  induction l as [ | y l [IHa IHb] ]; split; auto.
Qed.

Lemma getitem_ok {A : Type} (l : list A) (i : Z) (d : A) :
  0 <= i < Py.len l -> Py.getitem l i = Py.Ok (nth (Z.to_nat i) l d).
Proof.
  intros Hi. unfold Py.getitem.
  assert (E1 : (i <? 0) = false) by (apply Z.ltb_ge; lia).
  assert (E2 : (Py.len l <=? i) = false) by (apply Z.leb_gt; lia).
  rewrite E1. cbv zeta. rewrite E1, E2. cbn [orb].
  rewrite (nth_error_nth' l d); [ reflexivity | ].
  unfold Py.len in Hi. lia.
Qed.

Lemma getitem_middle {A : Type} (pre : list A) (x : A) (post : list A) :
  Py.getitem (pre ++ x :: post) (Py.len pre) = Py.Ok x.
Proof.
  rewrite (getitem_ok _ _ x).
  - unfold Py.len. rewrite Nat2Z.id, nth_middle. reflexivity.
  - unfold Py.len. rewrite length_app. cbn [length]. lia.
Qed.

Lemma len_app {A : Type} (l l' : list A) :
  Py.len (l ++ l') = Py.len l + Py.len l'.
Proof. unfold Py.len. rewrite length_app. lia. Qed.

Lemma len_cons {A : Type} (x : A) (l : list A) : Py.len (x :: l) = Py.len l + 1.
Proof. unfold Py.len. cbn [length]. lia. Qed.

Lemma len_nonneg {A : Type} (l : list A) : 0 <= Py.len l.
Proof. unfold Py.len. lia. Qed.

Section Renderer.

Variable reader : list Page.
Variable ref : Page.

Lemma reader_lookup (p : Z) :
  in_document reader p ->
  Py.getitem reader (p - 1) = Py.Ok (page_of reader ref p).
Proof. intros Hp. unfold page_of. apply getitem_ok. unfold in_document in Hp. lia. Qed.

(** The pairing loop, started at any even position of the selection. *)
Lemma pairing_loop (rest : list Z) :
  forall (pre : list Z) (writer : list Sheet),
    Forall (in_document reader) rest ->
    for_each (add_pair reader (pre ++ rest))
             (Py.range_from (Z.to_nat ((Py.len rest + 1) / 2)) (Py.len pre) 2)
             writer
    = Py.Ok (writer ++ pair_up (page_of reader ref) rest).
Proof.
  induction rest as [ | p | p q rest IH ] using list_ind2;
    intros pre writer Hin.
  - cbn. now rewrite app_nil_r.
  - apply Forall_inv in Hin.
    change (Z.to_nat ((Py.len [p] + 1) / 2)) with 1%nat.
    cbn [Py.range_from for_each]. unfold add_pair.
    rewrite getitem_middle. cbn [Py.bind].
    rewrite (reader_lookup p Hin). cbn [Py.bind].
    assert (E : (Py.len pre + 1 <? Py.len (pre ++ [p])) = false)
      by (rewrite len_app; apply Z.ltb_ge; change (Py.len [p]) with 1; lia).
    rewrite E. reflexivity.
  - pose proof (Forall_inv Hin) as Hp.
    pose proof (Forall_inv (Forall_inv_tail Hin)) as Hq.
    pose proof (Forall_inv_tail (Forall_inv_tail Hin)) as Hrest.
    replace (Z.to_nat ((Py.len (p :: q :: rest) + 1) / 2))
      with (S (Z.to_nat ((Py.len rest + 1) / 2))).
    2:{ rewrite !len_cons. pose proof (len_nonneg rest).
        assert (Hd : (Py.len rest + 1 + 1 + 1) / 2 = (Py.len rest + 1) / 2 + 1)
          by (Z.div_mod_to_equations; lia).
        assert (0 <= (Py.len rest + 1) / 2) by (Z.div_mod_to_equations; lia).
        rewrite Hd. lia. }
    cbn [Py.range_from for_each]. unfold add_pair at 1.
    rewrite getitem_middle. cbn [Py.bind].
    rewrite (reader_lookup p Hp). cbn [Py.bind].
    assert (E : (Py.len pre + 1 <? Py.len (pre ++ p :: q :: rest)) = true)
      by (rewrite len_app, !len_cons; apply Z.ltb_lt;
          pose proof (len_nonneg rest); lia).
    rewrite E.
    replace (pre ++ p :: q :: rest) with ((pre ++ [p]) ++ q :: rest)
      by (rewrite <- app_assoc; reflexivity).
    replace (Py.len pre + 1) with (Py.len (pre ++ [p]))
      by (rewrite len_app; reflexivity).
    rewrite getitem_middle. cbn [Py.bind].
    rewrite (reader_lookup q Hq). cbn [Py.bind].
    replace ((pre ++ [p]) ++ q :: rest) with ((pre ++ [p; q]) ++ rest)
      by (rewrite <- !app_assoc; reflexivity).
    replace (Py.len pre + 2) with (Py.len (pre ++ [p; q]))
      by (rewrite len_app; reflexivity).
    rewrite IH by exact Hrest.
    cbn [pair_up]. rewrite <- app_assoc. reflexivity.
Qed.

Lemma build_print_pdf_ok (tail : list Page) (pages : list Z) (blank : bool) :
  reader = ref :: tail ->
  Forall (in_document reader) pages ->
  build_print_pdf reader pages blank
  = Py.Ok (pair_up (page_of reader ref) pages
           ++ (if blank then [blank_sheet ref] else [])).
Proof.
  intros Hr Hin. unfold build_print_pdf.
  assert (Hget : Py.getitem reader 0 = Py.Ok ref) by (rewrite Hr; reflexivity).
  rewrite Hget. cbn [Py.bind]. unfold Py.range.
  replace (Py.len pages - 0 + 2 - 1) with (Py.len pages + 1) by lia.
  pose proof (pairing_loop pages [] [] Hin) as Hloop.
  cbn [app] in Hloop. change (Py.len (@nil Z)) with 0 in Hloop.
  rewrite Hloop. cbn [Py.bind]. destruct blank.
  - reflexivity.
  - now rewrite app_nil_r.
Qed.

Lemma pair_up_len (pages : list Z) :
  Py.len (pair_up (page_of reader ref) pages)
  = Py.math_ceil (Py.truediv (Py.len pages) 2).
Proof.
  rewrite math_ceil_truediv_2.
  induction pages as [ | p | p q rest IH ] using list_ind2.
  - reflexivity.
  - reflexivity.
  - cbn [pair_up]. rewrite !len_cons, IH.
    replace (Py.len rest + 1 + 1 + 1) with (Py.len rest + 1 + 1 * 2) by lia.
    rewrite Z.div_add by lia. reflexivity.
Qed.

Lemma pair_up_pages_on (pages : list Z) :
  pages_on (pair_up (page_of reader ref) pages)
  = map (page_of reader ref) pages.
Proof.
  unfold pages_on.
  induction pages as [ | p | p q rest IH ] using list_ind2.
  - reflexivity.
  - reflexivity.
  - cbn [pair_up map concat]. rewrite IH. reflexivity.
Qed.

Lemma pair_up_no_blank (pages : list Z) :
  Forall (fun sh => merged sh <> []) (pair_up (page_of reader ref) pages).
Proof.
  induction pages as [ | p | p q rest IH ] using list_ind2.
  - constructor.
  - constructor; [ discriminate | constructor ].
  - cbn [pair_up]. constructor; [ discriminate | exact IH ].
Qed.

End Renderer.

(** ** Selections are pages of the document *)

Lemma front_pages_in_bounds (n : Z) :
  0 <= n -> Forall (fun p => 1 <= p <= n) (get_front_pages n).
Proof.
  intros Hn. apply Forall_forall. intros p Hp.
  apply in_front_pages in Hp; tauto.
Qed.

Lemma back_pages_in_bounds (n : Z) :
  0 <= n -> Forall (fun p => 1 <= p <= n) (get_back_pages n).
Proof.
  intros Hn. apply Forall_forall. intros p Hp.
  apply in_back_pages in Hp; tauto.
Qed.

Lemma select_pass_in_document (reader : list Page) (side : string) :
  Forall (in_document reader) (fst (select_pass (Py.len reader) side)).
Proof.
  unfold select_pass, in_document.
  destruct (String.eqb side "front"); cbn [fst].
  - apply front_pages_in_bounds, len_nonneg.
  - apply back_pages_in_bounds, len_nonneg.
Qed.

(** A pass with pages to print submits the paired sheets, and the blank
    after them when the flag is set. *)
Lemma print_pdf_submits (reader : list Page) (side : string)
  (pages : list Z) (blank : bool) :
  select_pass (Py.len reader) side = (pages, blank) ->
  pages <> [] ->
  exists ref tail,
    reader = ref :: tail /\
    print_pdf reader side
    = Py.Ok (Submitted (pair_up (page_of reader ref) pages
                        ++ (if blank then [blank_sheet ref] else []))).
Proof.
  intros Hsel Hne.
  pose proof (select_pass_in_document reader side) as Hin.
  rewrite Hsel in Hin. cbn [fst] in Hin.
  destruct reader as [ | ref tail ].
  - destruct pages as [ | p pages ]; [ contradiction | ].
    apply Forall_inv in Hin. unfold in_document in Hin.
    change (Py.len (@nil Page)) with 0 in Hin. lia.
  - exists ref, tail. split; [ reflexivity | ].
    unfold print_pdf. cbv zeta. rewrite Hsel.
    destruct pages as [ | p pages ]; [ contradiction | ].
    rewrite (build_print_pdf_ok _ ref tail) by (reflexivity || assumption).
    reflexivity.
Qed.

(** ** The claims on the renderer and on [print_pdf] *)

(** C5.  For every nonempty selection of pages of the document and every
    blank flag, [build_print_pdf] writes the selection paired in order, two
    pages to a sheet, followed by the blank sheet when requested; the number
    of output pages is [ceil(len(selection)/2) + (1 if blank else 0)], the
    count [print_pdf] prints; the pages on the real sheets, read in order,
    are the selection, none dropped and none repeated; no real sheet is
    blank; and this is the document [print_pdf] submits for the pass. *)
Theorem rendered_sheets (reader : list Page) (pages : list Z) (blank : bool) :
  pages <> [] ->
  Forall (in_document reader) pages ->
  exists ref real,
    hd_error reader = Some ref
    /\ real = pair_up (page_of reader ref) pages
    /\ build_print_pdf reader pages blank
       = Py.Ok (real ++ (if blank then [blank_sheet ref] else []))
    /\ Py.len (real ++ (if blank then [blank_sheet ref] else []))
       = output_sheets pages blank
    /\ pages_on real = map (page_of reader ref) pages
    /\ Forall (fun p => Py.getitem reader (p - 1)
                        = Py.Ok (page_of reader ref p)) pages
    /\ Forall (fun sh => merged sh <> []) real
    /\ merged (blank_sheet ref) = []
    /\ (forall side,
          select_pass (Py.len reader) side = (pages, blank) ->
          print_pdf reader side
          = Py.Ok (Submitted
                     (real ++ (if blank then [blank_sheet ref] else [])))).
Proof.
  intros Hne Hin.
  destruct reader as [ | ref tail ].
  - destruct pages as [ | p pages ]; [ contradiction | ].
    apply Forall_inv in Hin. unfold in_document in Hin.
    change (Py.len (@nil Page)) with 0 in Hin. lia.
  - exists ref, (pair_up (page_of (ref :: tail) ref) pages).
    repeat match goal with |- _ /\ _ => split end.
    + reflexivity.
    + reflexivity.
    + now apply (build_print_pdf_ok _ ref tail).
    + rewrite len_app, pair_up_len. unfold output_sheets.
      destruct blank; reflexivity.
    + apply pair_up_pages_on.
    + eapply Forall_impl; [ | exact Hin ]. intros p Hp.
      now apply reader_lookup.
    + apply pair_up_no_blank.
    + reflexivity.
    + intros side Hsel.
      destruct (print_pdf_submits _ _ _ _ Hsel Hne) as (r & t & Hr & Hp).
      injection Hr as <- <-. exact Hp.
Qed.

Lemma rendered_sheets_witness :
  let reader := [mkPage 595 842 10; mkPage 595 842 11; mkPage 595 842 12] in
  [3] <> [] /\
  Forall (in_document reader) [3] /\
  exists ref real,
    hd_error reader = Some ref
    /\ real = pair_up (page_of reader ref) [3]
    /\ build_print_pdf reader [3] true
       = Py.Ok (real ++ [blank_sheet ref])
    /\ Py.len (real ++ [blank_sheet ref]) = output_sheets [3] true
    /\ pages_on real = map (page_of reader ref) [3]
    /\ Forall (fun p => Py.getitem reader (p - 1)
                        = Py.Ok (page_of reader ref p)) [3]
    /\ Forall (fun sh => merged sh <> []) real
    /\ merged (blank_sheet ref) = []
    /\ (forall side,
          select_pass (Py.len reader) side = ([3], true) ->
          print_pdf reader side
          = Py.Ok (Submitted (real ++ [blank_sheet ref]))).
Proof.
  assert (Hin : Forall (in_document
                          [mkPage 595 842 10; mkPage 595 842 11;
                           mkPage 595 842 12]) [3])
    by (repeat constructor; unfold in_document; vm_compute; discriminate).
  split; [ discriminate | ]. split; [ exact Hin | ].
  apply (rendered_sheets
           [mkPage 595 842 10; mkPage 595 842 11; mkPage 595 842 12] [3] true).
  - discriminate.
  - exact Hin.
Defined.

(** [print_pdf] returns for every document and side. *)
Lemma print_pdf_total (reader : list Page) (side : string) :
  exists out, print_pdf reader side = Py.Ok out.
Proof.
  destruct (select_pass (Py.len reader) side) as [pages blank] eqn:Hsel.
  destruct pages as [ | p pages ].
  - unfold print_pdf. cbv zeta. rewrite Hsel.
    destruct (String.eqb side "back" && (1 <=? num_physical_sheets (Py.len reader)))
      eqn:Hb; [ | eexists; reflexivity ].
    apply andb_prop in Hb. destruct Hb as [_ Hs]. apply Z.leb_le in Hs.
    destruct reader as [ | ref tail ].
    + change (num_physical_sheets (Py.len (@nil Page))) with 0 in Hs. lia.
    + eexists. reflexivity.
  - destruct (print_pdf_submits reader side (p :: pages) blank Hsel)
      as (ref & tail & _ & Hp); [ discriminate | ].
    eexists. exact Hp.
Qed.

(** C2.  For every page count, [needs_back_blank] holds exactly when
    [num_physical_sheets] is odd; and for every page count the front pass of
    [print_pdf] runs with [append_blank = False]: the flag is only ever set
    for another side, where it is [needs_back_blank], and the document the
    front pass submits is the paired selection with no blank sheet in it. *)
Theorem blank_only_on_back (pageCount : Z) :
  (needs_back_blank pageCount = true
     <-> Z.odd (num_physical_sheets pageCount) = true)
  /\ select_pass pageCount "front" = (get_front_pages pageCount, false)
  /\ (forall side,
        snd (select_pass pageCount side)
        = if String.eqb side "front" then false
          else needs_back_blank pageCount)
  /\ (forall reader : list Page,
        Py.len reader = pageCount ->
        print_pdf reader "front"
        = Py.Ok match reader with
                | [] => Skipped
                | ref :: _ =>
                    Submitted (pair_up (page_of reader ref)
                                       (get_front_pages pageCount))
                end
        /\ Forall (fun sh => merged sh <> [])
                  (pair_up (page_of reader (hd (mkPage 0 0 0) reader))
                           (get_front_pages pageCount))).
Proof.
  repeat match goal with |- _ /\ _ => split end.
  - unfold needs_back_blank. rewrite Z.eqb_eq, Zmod_odd.
    destruct (Z.odd (num_physical_sheets pageCount)); split;
      intros H; try reflexivity; discriminate.
  - reflexivity.
  - intros side. unfold select_pass.
    destruct (String.eqb side "front"); reflexivity.
  - intros reader Hlen. split; [ | apply pair_up_no_blank ].
    destruct reader as [ | ref tail ]; [ subst pageCount; reflexivity | ].
    assert (Hsel : select_pass (Py.len (ref :: tail)) "front"
                   = (get_front_pages (Py.len (ref :: tail)), false))
      by reflexivity.
    assert (Hne : get_front_pages (Py.len (ref :: tail)) <> []).
    { intros He.
      assert (Hin : In 1 (get_front_pages (Py.len (ref :: tail)))).
      { apply in_front_pages; [ apply len_nonneg | ].
        rewrite len_cons. pose proof (len_nonneg tail).
        split; [ lia | reflexivity ]. }
      rewrite He in Hin. destruct Hin. }
    destruct (print_pdf_submits _ _ _ _ Hsel Hne) as (r & t & Hr & Hp).
    injection Hr as <- <-. rewrite app_nil_r in Hp. subst pageCount. exact Hp.
Qed.

(** C6.  For a single page: one sheet (odd), front [1], back empty, blank
    owed; and the back pass of [print_pdf], whose selection is empty, is not
    skipped but submits one sheet with nothing on it, whereas with no pages
    and no blank owed (an empty document) the pass is skipped. *)
Theorem single_page_back_blank (page : Page) :
  num_physical_sheets 1 = 1
  /\ Z.odd (num_physical_sheets 1) = true
  /\ get_front_pages 1 = [1]
  /\ get_back_pages 1 = []
  /\ needs_back_blank 1 = true
  /\ select_pass (Py.len [page]) "back" = ([], true)
  /\ print_pdf [page] "back" = Py.Ok (Submitted [blank_sheet page])
  /\ merged (blank_sheet page) = []
  /\ select_pass (Py.len (@nil Page)) "back" = ([], false)
  /\ print_pdf [] "back" = Py.Ok Skipped.
Proof. repeat split. Qed.

(** C7.  The concrete scenarios: 5 pages give 3 sheets, front [1,2,5], back
    [3,4], blank owed, 2 output sheets for the front and 2 for the back (one
    real and the blank); 12 pages give 6 sheets, front [1,2,5,6,9,10], back
    [3,4,7,8,11,12], no blank, 3 output sheets per pass; no pages give empty
    selections, no blank, no output sheets, and both passes are skipped. *)
Theorem concrete_scenarios (p1 p2 p3 p4 p5 p6 p7 p8 p9 p10 p11 p12 : Page) :
  (num_physical_sheets 5 = 3
   /\ get_front_pages 5 = [1; 2; 5]
   /\ get_back_pages 5 = [3; 4]
   /\ needs_back_blank 5 = true
   /\ output_sheets (get_front_pages 5) false = 2
   /\ output_sheets (get_back_pages 5) (needs_back_blank 5) = 2
   /\ print_pdf [p1; p2; p3; p4; p5] "front"
      = Py.Ok (Submitted [make_2up_sheet p1 (Some p2); make_2up_sheet p5 None])
   /\ print_pdf [p1; p2; p3; p4; p5] "back"
      = Py.Ok (Submitted [make_2up_sheet p3 (Some p4); blank_sheet p1]))
  /\ (num_physical_sheets 12 = 6
      /\ get_front_pages 12 = [1; 2; 5; 6; 9; 10]
      /\ get_back_pages 12 = [3; 4; 7; 8; 11; 12]
      /\ needs_back_blank 12 = false
      /\ output_sheets (get_front_pages 12) false = 3
      /\ output_sheets (get_back_pages 12) (needs_back_blank 12) = 3
      /\ print_pdf [p1; p2; p3; p4; p5; p6; p7; p8; p9; p10; p11; p12] "front"
         = Py.Ok (Submitted [make_2up_sheet p1 (Some p2);
                             make_2up_sheet p5 (Some p6);
                             make_2up_sheet p9 (Some p10)])
      /\ print_pdf [p1; p2; p3; p4; p5; p6; p7; p8; p9; p10; p11; p12] "back"
         = Py.Ok (Submitted [make_2up_sheet p3 (Some p4);
                             make_2up_sheet p7 (Some p8);
                             make_2up_sheet p11 (Some p12)]))
  /\ (get_front_pages 0 = []
      /\ get_back_pages 0 = []
      /\ needs_back_blank 0 = false
      /\ output_sheets (get_front_pages 0) false = 0
      /\ output_sheets (get_back_pages 0) (needs_back_blank 0) = 0
      /\ print_pdf [] "front" = Py.Ok Skipped
      /\ print_pdf [] "back" = Py.Ok Skipped).
Proof. repeat split. Qed.

(** ** The win32 backend *)

Lemma installed_accepted (name : string) (printers : list string) :
  In name printers -> existsb (String.eqb name) printers = true.
Proof.
  intros Hin. apply existsb_exists. exists name.
  split; [ exact Hin | apply String.eqb_refl ].
Qed.

(** The protected block of [print_via_win32], once the default printer has
    been read and the target printer is an installed one. *)
Lemma switch_submit_restore (env : Win32.Env) (pdf_path printer : string)
  (w : Win32.World) (original : string) :
  (forall verb file params w0,
     Win32.installed (snd (Win32.ShellExecute env verb file params w0))
     = Win32.installed w0) ->
  In original (Win32.installed w) ->
  In printer (Win32.installed w) ->
  let submitted :=
    Win32.ShellExecute env "printto" pdf_path
      (Win32.quote ++ printer ++ Win32.quote)%string
      (Win32.mkWorld (Some printer) (Win32.installed w) (Win32.spooled w)) in
  Win32.try_finally
    (Win32.bind (Win32.SetDefaultPrinter printer) (fun _ =>
     Win32.bind (Win32.ShellExecute env "printto" pdf_path
                   (Win32.quote ++ printer ++ Win32.quote)%string)
                (fun _ => Win32.ret tt)))
    (Win32.SetDefaultPrinter original) w
  = (fst submitted,
     Win32.mkWorld (Some original) (Win32.installed (snd submitted))
                   (Win32.spooled (snd submitted))).
Proof.
  intros Hshell Ho Hp. cbv zeta.
  unfold Win32.try_finally, Win32.bind, Win32.SetDefaultPrinter at 1.
  rewrite (installed_accepted _ _ Hp).
  pose proof (Hshell "printto"%string pdf_path
                (Win32.quote ++ printer ++ Win32.quote)%string
                (Win32.mkWorld (Some printer) (Win32.installed w)
                               (Win32.spooled w))) as Hkeep.
  destruct (Win32.ShellExecute env "printto" pdf_path
              (Win32.quote ++ printer ++ Win32.quote)%string
              (Win32.mkWorld (Some printer) (Win32.installed w)
                             (Win32.spooled w))) as [r w1].
  cbn [fst snd Win32.installed] in *.
  assert (Hacc : existsb (String.eqb original) (Win32.installed w1) = true)
    by (rewrite Hkeep; now apply installed_accepted).
  destruct r as [ [] | e ]; unfold Win32.ret, Win32.SetDefaultPrinter;
    rewrite Hacc; reflexivity.
Qed.

(** C10.  [print_via_win32] leaves the default printer as it found it on
    every exit path: when pywin32 is missing, when no default printer can be
    read, when the switch to the target printer is refused, and when the
    submission returns or raises.  Whenever the switch happens, the default
    was read before it, the request is made with the target as default, and
    the saved default is set back after it whatever its outcome.  The shell
    may do anything but uninstall printers, and the default printer is one
    of the installed ones. *)
Theorem default_printer_restored (env : Win32.Env) (pdf_path printer : string)
  (w : Win32.World) :
  (forall verb file params w0,
     Win32.installed (snd (Win32.ShellExecute env verb file params w0))
     = Win32.installed w0) ->
  (forall p, Win32.default_printer w = Some p -> In p (Win32.installed w)) ->
  Win32.default_printer (snd (Win32.print_via_win32 env pdf_path printer w))
    = Win32.default_printer w
  /\ (forall original,
        Win32.pywin32_found env = true ->
        Win32.default_printer w = Some original ->
        In printer (Win32.installed w) ->
        let switched :=
          Win32.mkWorld (Some printer) (Win32.installed w) (Win32.spooled w) in
        let submitted :=
          Win32.ShellExecute env "printto" pdf_path
                             (Win32.quote ++ printer ++ Win32.quote)%string
                             switched in
        Win32.print_via_win32 env pdf_path printer w
        = (fst submitted,
           Win32.mkWorld (Some original) (Win32.installed (snd submitted))
                         (Win32.spooled (snd submitted)))).
Proof.
  intros Hshell Hdef. unfold Win32.print_via_win32. split.
  - destruct (Win32.pywin32_found env); cbn [negb]; [ | reflexivity ].
    unfold Win32.bind at 1, Win32.GetDefaultPrinter.
    destruct (Win32.default_printer w) as [ original | ] eqn:Ho;
      [ | cbn [snd]; exact Ho ].
    destruct (in_dec string_dec printer (Win32.installed w)) as [ Hp | Hp ].
    + rewrite (switch_submit_restore env pdf_path printer w original
                 Hshell (Hdef original eq_refl) Hp).
      reflexivity.
    + assert (Hrej : existsb (String.eqb printer) (Win32.installed w) = false).
      { destruct (existsb _ _) eqn:E; [ | reflexivity ].
        apply existsb_exists in E. destruct E as (x & Hx & Heq).
        apply String.eqb_eq in Heq. subst x. contradiction. }
      unfold Win32.try_finally, Win32.bind, Win32.SetDefaultPrinter.
      rewrite Hrej, (installed_accepted _ _ (Hdef original eq_refl)).
      reflexivity.
  - intros original Hfound Ho Hp. cbv zeta. rewrite Hfound. cbn [negb].
    unfold Win32.bind at 1, Win32.GetDefaultPrinter. rewrite Ho.
    apply (switch_submit_restore env pdf_path printer w original
             Hshell (Hdef original Ho) Hp).
Qed.

Lemma default_printer_restored_witness :
  let env :=
    Win32.mkEnv true
      (fun _ _ _ w => (Py.Raise Py.Win32Error,
                       Win32.mkWorld None (Win32.installed w)
                                     (Win32.spooled w))) in
  let w := Win32.mkWorld (Some "Office"%string)
                         ["Office"; "EPSON L130 Series"]%string [] in
  (forall verb file params w0,
     Win32.installed (snd (Win32.ShellExecute env verb file params w0))
     = Win32.installed w0)
  /\ (forall p, Win32.default_printer w = Some p -> In p (Win32.installed w))
  /\ Win32.default_printer
    (snd (Win32.print_via_win32 env "a.pdf" "EPSON L130 Series" w))
    = Win32.default_printer w
  /\ (forall original,
        Win32.pywin32_found env = true ->
        Win32.default_printer w = Some original ->
        In "EPSON L130 Series"%string (Win32.installed w) ->
        let switched :=
          Win32.mkWorld (Some "EPSON L130 Series"%string)
                        (Win32.installed w) (Win32.spooled w) in
        let submitted :=
          Win32.ShellExecute env "printto" "a.pdf"
            (Win32.quote ++ "EPSON L130 Series" ++ Win32.quote)%string
            switched in
        Win32.print_via_win32 env "a.pdf" "EPSON L130 Series" w
        = (fst submitted,
           Win32.mkWorld (Some original) (Win32.installed (snd submitted))
                         (Win32.spooled (snd submitted)))).
Proof.
  cbv zeta.
  split; [ intros verb file params w0; reflexivity | ].
  split; [ intros p Hp; injection Hp as <-; simpl; left; reflexivity | ].
  apply (default_printer_restored
           (Win32.mkEnv true
              (fun _ _ _ w => (Py.Raise Py.Win32Error,
                               Win32.mkWorld None (Win32.installed w)
                                             (Win32.spooled w))))
           "a.pdf" "EPSON L130 Series"
           (Win32.mkWorld (Some "Office"%string)
                          ["Office"; "EPSON L130 Series"]%string [])).
  - intros verb file params w0. reflexivity.
  - intros p Hp. injection Hp as <-. simpl. left. reflexivity.
Defined.

(** ** The binary64 quotient agrees with the exact one up to [2^53] *)

(** X18.  For every page count of magnitude at most [2^53], the binary64
    computation of [math.ceil(total_pages / 2)] does not overflow and gives
    the exact ceiling, the value of [num_physical_sheets]. *)
Lemma truediv2_exact (n : Z) :
  Z.abs n <= 2 ^ 53 ->
  Float53.ceil_truediv2 n = Some (num_physical_sheets n).
Proof.
  intros Hn. rewrite num_physical_sheets_eq.
  destruct (Z.eq_dec (Z.abs n) (2 ^ 53)) as [ He | Hne ].
  - assert (H : n = 2 ^ 53 \/ n = - 2 ^ 53) by lia.
    destruct H as [ -> | -> ]; vm_compute; reflexivity.
  - destruct (Z.eq_dec n 0) as [ -> | Hz ]; [ reflexivity | ].
    unfold Float53.ceil_truediv2, Float53.truediv2.
    assert (Ha : 0 < Z.abs n < 2 ^ 53) by lia.
    assert (E0 : (Z.abs n =? 0) = false) by (apply Z.eqb_neq; lia).
    assert (Hlog : Z.log2 (Z.abs n) < 53) by (apply Z.log2_lt_pow2; lia).
    rewrite E0. cbv zeta.
    replace (Z.max 0 (Z.log2 (Z.abs n) + 1 - Float53.prec)) with 0
      by (unfold Float53.prec; lia).
    assert (Hr : Float53.round_half_even (Z.abs n) 0 = Z.abs n).
    { unfold Float53.round_half_even. change (2 ^ 0) with 1.
      rewrite Z.mod_1_r, Z.div_1_r. reflexivity. }
    rewrite Hr. change (2 ^ 0) with 1. rewrite Z.mul_1_r.
    assert (Hbig : 2 ^ 53 < 2 ^ (Float53.emax + 1))
      by (apply Z.pow_lt_mono_r; unfold Float53.emax; lia).
    destruct (Z.leb_spec (2 ^ (Float53.emax + 1)) (Z.abs n)); [ lia | ].
    cbn [option_map]. f_equal. unfold Float53.ceil.
    cbn [Float53.expo Float53.mant].
    change (0 <=? 0 - 1) with false. change (2 ^ (- (0 - 1))) with 2.
    cbv iota.
    replace (Z.sgn n * Z.abs n) with n by (rewrite Z.mul_comm, Z.abs_sgn; lia).
    Z.div_mod_to_equations; lia.
Qed.

Lemma truediv2_exact_witness :
  Z.abs 1000001 <= 2 ^ 53
  /\ Float53.ceil_truediv2 1000001 = Some (num_physical_sheets 1000001).
Proof.
  split; [ vm_compute; discriminate | ].
  apply truediv2_exact. vm_compute. discriminate.
Defined.

(** Above [2^53] the binary64 quotient is rounded before [math.ceil] sees
    it. *)
Example truediv2_rounds :
  Float53.ceil_truediv2 (2 ^ 53 + 1) = Some (2 ^ 52)
  /\ num_physical_sheets (2 ^ 53 + 1) = 2 ^ 52 + 1.
Proof. split; vm_compute; reflexivity. Qed.

(** * Further properties of the script *)

(** ** The imposition engine *)

(** With the exact sheet count. *)

Lemma pass_of_page_exact (total_pages p : Z) :
  0 <= total_pages ->
  (In p (get_front_pages total_pages)
     <-> 1 <= p <= total_pages /\ Z.odd ((p - 1) / 2 + 1) = true)
  /\ (In p (get_back_pages total_pages)
     <-> 1 <= p <= total_pages /\ Z.even ((p - 1) / 2 + 1) = true).
Proof.
  intros Hn. rewrite in_front_pages, in_back_pages by exact Hn.
  pose proof (Zmod_odd ((p - 1) / 2 + 1)) as Ho.
  rewrite <- Z.negb_even in Ho.
  assert (Hs : ((p - 1) / 2 + 1) mod 2 = 1 - ((p - 1) / 2) mod 2)
    by (Z.div_mod_to_equations; lia).
  pose proof (Z.mod_pos_bound ((p - 1) / 2) 2 ltac:(lia)) as Hb.
  rewrite <- Z.negb_even.
  destruct (Z.even ((p - 1) / 2 + 1)); cbn [negb] in *;
    split; split; intros [H1 H2]; split;
    try assumption; try reflexivity; try discriminate; lia.
Qed.

Lemma needs_back_blank_mod_4_exact (total_pages : Z) :
  needs_back_blank total_pages = true
  <-> total_pages mod 4 = 1 \/ total_pages mod 4 = 2.
Proof.
  unfold needs_back_blank.
  rewrite Z.eqb_eq, num_physical_sheets_eq.
  Z.div_mod_to_equations; lia.
Qed.

Lemma no_pages_no_selection_exact (total_pages : Z) :
  (get_front_pages total_pages = [] <-> total_pages <= 0)
  /\ (get_front_pages total_pages = [] -> get_back_pages total_pages = []).
Proof.
  assert (Hfront : total_pages <= 0 -> get_front_pages total_pages = []).
  { intros Hle. unfold get_front_pages, Py.range.
    rewrite num_physical_sheets_eq.
    replace (Z.to_nat (((total_pages + 1) / 2 - 0 + 2 - 1) / 2)) with 0%nat
      by (assert ((((total_pages + 1) / 2 - 0 + 2 - 1) / 2) <= 0)
            by (Z.div_mod_to_equations; lia); lia).
    reflexivity. }
  assert (Hback : total_pages <= 0 -> get_back_pages total_pages = []).
  { intros Hle. unfold get_back_pages, Py.range.
    rewrite num_physical_sheets_eq.
    replace (Z.to_nat (((total_pages + 1) / 2 - 1 + 2 - 1) / 2)) with 0%nat
      by (assert ((((total_pages + 1) / 2 - 1 + 2 - 1) / 2) <= 0)
            by (Z.div_mod_to_equations; lia); lia).
    reflexivity. }
  assert (Hnil : get_front_pages total_pages = [] -> total_pages <= 0).
  { intros He. destruct (Z_le_gt_dec total_pages 0) as [ | Hgt ];
      [ assumption | ].
    assert (Hin : In 1 (get_front_pages total_pages))
      by (apply in_front_pages; [ lia | split; [ lia | reflexivity ] ]).
    rewrite He in Hin. destruct Hin. }
  split; [ split; assumption | ].
  intros He. apply Hback, Hnil, He.
Qed.

Lemma selection_length_exact (n : Z) (c : nat) (a : Z) :
  2 * (a + 2 * (Z.of_nat c - 1)) + 1 <= n ->
  (0 < c)%nat ->
  Py.len (concat (map (sheet_pages n) (Py.range_from c a 2)))
  = 2 * Z.of_nat c
    - (if 2 * (a + 2 * (Z.of_nat c - 1)) + 2 <=? n then 0 else 1).
Proof.
  unfold Py.len. revert a. induction c as [ | c IH ]; intros a Hlast Hc.
  - lia.
  - cbn [Py.range_from map concat]. rewrite length_app.
    destruct c as [ | c ].
    + cbn [Py.range_from map concat length]. unfold sheet_pages.
      replace (2 * (a + 2 * (Z.of_nat 1 - 1)) + 2) with (2 * a + 2) by lia.
      destruct (2 * a + 2 <=? n); cbn [app length]; lia.
    + specialize (IH (a + 2) ltac:(lia) ltac:(lia)).
      replace (2 * (a + 2 * (Z.of_nat (S (S c)) - 1)) + 2)
        with (2 * (a + 2 + 2 * (Z.of_nat (S c) - 1)) + 2) by lia.
      unfold sheet_pages at 1.
      destruct (Z.leb_spec (2 * a + 2) n); cbn [app length]; lia.
Qed.

Lemma front_pages_len (n : Z) :
  0 <= n -> Py.len (get_front_pages n) = 2 * (n / 4) + Z.min 2 (n mod 4).
Proof.
  intros Hn. unfold get_front_pages.
  rewrite fold_append_sheet, app_nil_l. unfold Py.range.
  rewrite num_physical_sheets_eq.
  destruct (Z.to_nat (((n + 1) / 2 - 0 + 2 - 1) / 2)) as [ | c ] eqn:E.
  - cbn [Py.range_from map concat]. change (Py.len (@nil Z)) with 0.
    assert (((n + 1) / 2 - 0 + 2 - 1) / 2 <= 0) by lia.
    Z.div_mod_to_equations; lia.
  - rewrite <- E.
    assert (Hc : 0 < ((n + 1) / 2 - 0 + 2 - 1) / 2) by lia.
    rewrite selection_length_exact.
    + rewrite Z2Nat.id by lia.
      destruct (Z.leb_spec
                  (2 * (0 + 2 * (((n + 1) / 2 - 0 + 2 - 1) / 2 - 1)) + 2) n);
        Z.div_mod_to_equations; lia.
    + rewrite Z2Nat.id by lia. Z.div_mod_to_equations; lia.
    + lia.
Qed.

Lemma selection_sizes_exact (total_pages : Z) :
  0 <= total_pages ->
  Py.len (get_front_pages total_pages)
    = 2 * (total_pages / 4) + Z.min 2 (total_pages mod 4)
  /\ Py.len (get_back_pages total_pages)
    = 2 * (total_pages / 4) + Z.max 0 (total_pages mod 4 - 2)
  /\ Py.len (get_back_pages total_pages)
     <= Py.len (get_front_pages total_pages)
     <= Py.len (get_back_pages total_pages) + 2.
Proof.
  intros Hn.
  pose proof (front_pages_len total_pages Hn) as Hf.
  pose proof (Permutation_length (front_back_permutation total_pages Hn)) as Hl.
  pose proof (all_pages_len total_pages Hn) as Ha.
  unfold Py.len in *. rewrite length_app in Hl.
  repeat match goal with |- _ /\ _ => split end;
    Z.div_mod_to_equations; lia.
Qed.

(** ** The engine as computed, on any integer *)

Lemma pow_2_53_pos : 0 < 2 ^ 53.
Proof. reflexivity. Qed.

Lemma ceil_truediv2_small (n : Z) :
  - 2 ^ 53 <= n <= 2 ^ 53 ->
  Float53.ceil_truediv2 n = Some (num_physical_sheets n).
Proof.
  intros Hn. rewrite num_physical_sheets_eq.
  destruct (Z.eq_dec (Z.abs n) (2 ^ 53)) as [ He | Hne ].
  - assert (H : n = 2 ^ 53 \/ n = - 2 ^ 53) by lia.
    destruct H as [ -> | -> ]; vm_compute; reflexivity.
  - destruct (Z.eq_dec n 0) as [ -> | Hz ]; [ reflexivity | ].
    unfold Float53.ceil_truediv2, Float53.truediv2.
    assert (Ha : 0 < Z.abs n < 2 ^ 53) by lia.
    assert (E0 : (Z.abs n =? 0) = false) by (apply Z.eqb_neq; lia).
    assert (Hlog : Z.log2 (Z.abs n) < 53) by (apply Z.log2_lt_pow2; lia).
    rewrite E0. cbv zeta.
    replace (Z.max 0 (Z.log2 (Z.abs n) + 1 - Float53.prec)) with 0
      by (unfold Float53.prec; lia).
    assert (Hr : Float53.round_half_even (Z.abs n) 0 = Z.abs n).
    { unfold Float53.round_half_even. change (2 ^ 0) with 1.
      rewrite Z.mod_1_r, Z.div_1_r. reflexivity. }
    rewrite Hr. change (2 ^ 0) with 1. rewrite Z.mul_1_r.
    assert (Hbig : 2 ^ 53 < 2 ^ (Float53.emax + 1))
      by (apply Z.pow_lt_mono_r; unfold Float53.emax; lia).
    destruct (Z.leb_spec (2 ^ (Float53.emax + 1)) (Z.abs n)); [ lia | ].
    cbn [option_map]. f_equal. unfold Float53.ceil.
    cbn [Float53.expo Float53.mant].
    change (0 <=? 0 - 1) with false. change (2 ^ (- (0 - 1))) with 2.
    cbv iota.
    replace (Z.sgn n * Z.abs n) with n by (rewrite Z.mul_comm, Z.abs_sgn; lia).
    Z.div_mod_to_equations; lia.
Qed.

(** Up to [2^53] in magnitude the engine computes what the exact quotient
    gives, and does not raise. *)
Lemma binary64_agrees (n : Z) :
  - 2 ^ 53 <= n <= 2 ^ 53 ->
  Binary64.num_physical_sheets n = Some (num_physical_sheets n)
  /\ Binary64.get_front_pages n = Some (get_front_pages n)
  /\ Binary64.get_back_pages n = Some (get_back_pages n)
  /\ Binary64.needs_back_blank n = Some (needs_back_blank n).
Proof.
  intros Hn.
  unfold Binary64.get_front_pages, Binary64.get_back_pages,
    Binary64.needs_back_blank, Binary64.num_physical_sheets.
  rewrite (ceil_truediv2_small n Hn). repeat split.
Qed.

Lemma binary64_agrees_nonneg (n : Z) :
  0 <= n <= 2 ^ 53 ->
  Binary64.num_physical_sheets n = Some (num_physical_sheets n)
  /\ Binary64.get_front_pages n = Some (get_front_pages n)
  /\ Binary64.get_back_pages n = Some (get_back_pages n)
  /\ Binary64.needs_back_blank n = Some (needs_back_blank n).
Proof.
  intros Hn. apply binary64_agrees. pose proof pow_2_53_pos. lia.
Qed.

(** C1.  At [2^53 + 1] pages the binary64 quotient makes
    [num_physical_sheets] return [2^52], one sheet short: both selections
    are computed, every page in them is at most [2^53], and the last page,
    [2^53 + 1], is in neither of them. *)
Theorem last_page_dropped_above_2_53 :
  Binary64.num_physical_sheets (2 ^ 53 + 1) = Some (2 ^ 52)
  /\ exists front back,
       Binary64.get_front_pages (2 ^ 53 + 1) = Some front
       /\ Binary64.get_back_pages (2 ^ 53 + 1) = Some back
       /\ ~ In (2 ^ 53 + 1) front
       /\ ~ In (2 ^ 53 + 1) back
       /\ (forall p, In p front \/ In p back -> 1 <= p <= 2 ^ 53).
Proof.
  assert (Hs : Binary64.num_physical_sheets (2 ^ 53 + 1) = Some (2 ^ 52))
    by (vm_compute; reflexivity).
  split; [ exact Hs | ].
  unfold Binary64.get_front_pages, Binary64.get_back_pages. rewrite Hs.
  eexists. eexists. split; [ reflexivity | ]. split; [ reflexivity | ].
  assert (Hall : forall a p,
            0 <= a ->
            In p (fold_left (append_sheet (2 ^ 53 + 1))
                            (Py.range a (2 ^ 52) 2) []) ->
            1 <= p <= 2 ^ 53).
  { intros a p Ha. rewrite fold_append_sheet, app_nil_l, in_selection.
    intros (s & ((Hlo & Hhi) & _) & Hp).
    change (2 ^ 52) with 4503599627370496 in Hhi.
    change (2 ^ 53) with 9007199254740992 in *. lia. }
  split; [ | split ].
  - intros Hin. apply (Hall 0) in Hin; lia.
  - intros Hin. apply (Hall 1) in Hin; lia.
  - intros p [ Hin | Hin ]; [ apply (Hall 0) in Hin | apply (Hall 1) in Hin ];
      lia.
Qed.

(** C3.  At [2^53 + 1] pages [num_physical_sheets] returns [2^52], which is
    not the ceiling of half the page count: twice that many sheets hold
    fewer pages than there are; the ceiling, [2^52 + 1], is odd, and
    [needs_back_blank] returns [False]. *)
Theorem sheet_count_short_above_2_53 :
  Binary64.num_physical_sheets (2 ^ 53 + 1) = Some (2 ^ 52)
  /\ 2 * 2 ^ 52 < 2 ^ 53 + 1
  /\ num_physical_sheets (2 ^ 53 + 1) = 2 ^ 52 + 1
  /\ Z.odd (2 ^ 52 + 1) = true
  /\ Binary64.needs_back_blank (2 ^ 53 + 1) = Some false.
Proof. repeat split; vm_compute; reflexivity. Qed.

(** C8.  The engine raises on large counts and leaves the page range on
    others: at [2^1025] the quotient overflows and [num_physical_sheets],
    with the selections, raises [OverflowError]; at [2^54 + 6] pages
    [num_physical_sheets] returns [2^53 + 4], one sheet too many, and the
    back selection contains page [2^54 + 7], which the document does not
    have. *)
Theorem engine_raises_and_overruns :
  Binary64.num_physical_sheets (2 ^ 1025) = None
  /\ Binary64.get_front_pages (2 ^ 1025) = None
  /\ Binary64.get_back_pages (2 ^ 1025) = None
  /\ Binary64.needs_back_blank (2 ^ 1025) = None
  /\ Binary64.num_physical_sheets (2 ^ 54 + 6) = Some (2 ^ 53 + 4)
  /\ exists back,
       Binary64.get_back_pages (2 ^ 54 + 6) = Some back
       /\ In (2 ^ 54 + 7) back.
Proof.
  assert (Hs : Binary64.num_physical_sheets (2 ^ 54 + 6) = Some (2 ^ 53 + 4))
    by (vm_compute; reflexivity).
  split; [ vm_compute; reflexivity | ].
  split; [ vm_compute; reflexivity | ].
  split; [ vm_compute; reflexivity | ].
  split; [ vm_compute; reflexivity | ].
  split; [ exact Hs | ].
  unfold Binary64.get_back_pages. rewrite Hs.
  eexists. split; [ reflexivity | ].
  rewrite fold_append_sheet, app_nil_l, in_selection.
  exists (2 ^ 53 + 3).
  change (2 ^ 53) with 9007199254740992.
  change (2 ^ 54) with 18014398509481984.
  split; [ split; [ lia | reflexivity ] | left; lia ].
Qed.

(** X1.  For a page count from 0 to [2^53], a page belongs to the front
    selection exactly when its physical sheet, counted from 1, has an odd
    number, and to the back selection exactly when that number is even. *)
Theorem pass_of_page (total_pages : Z) :
  0 <= total_pages <= 2 ^ 53 ->
  exists front back,
    Binary64.get_front_pages total_pages = Some front
    /\ Binary64.get_back_pages total_pages = Some back
    /\ forall p,
         (In p front
            <-> 1 <= p <= total_pages /\ Z.odd ((p - 1) / 2 + 1) = true)
         /\ (In p back
            <-> 1 <= p <= total_pages /\ Z.even ((p - 1) / 2 + 1) = true).
Proof.
  intros Hn. destruct (binary64_agrees_nonneg _ Hn) as (_ & Hf & Hb & _).
  exists (get_front_pages total_pages), (get_back_pages total_pages).
  split; [ exact Hf | ]. split; [ exact Hb | ].
  intros p. apply pass_of_page_exact. lia.
Qed.

Lemma pass_of_page_witness :
  0 <= 7 <= 2 ^ 53
  /\ exists front back,
       Binary64.get_front_pages 7 = Some front
       /\ Binary64.get_back_pages 7 = Some back
       /\ forall p,
            (In p front <-> 1 <= p <= 7 /\ Z.odd ((p - 1) / 2 + 1) = true)
            /\ (In p back <-> 1 <= p <= 7 /\ Z.even ((p - 1) / 2 + 1) = true).
Proof.
  assert (H : 0 <= 7 <= 2 ^ 53) by (split; vm_compute; discriminate).
  split; [ exact H | apply (pass_of_page 7 H) ].
Defined.

(** X2.  For a page count of magnitude at most [2^53], [needs_back_blank]
    returns, and returns [True] exactly when the count leaves remainder 1 or
    2 modulo 4. *)
Theorem needs_back_blank_mod_4 (total_pages : Z) :
  - 2 ^ 53 <= total_pages <= 2 ^ 53 ->
  exists blank,
    Binary64.needs_back_blank total_pages = Some blank
    /\ (blank = true <-> total_pages mod 4 = 1 \/ total_pages mod 4 = 2).
Proof.
  intros Hn. destruct (binary64_agrees _ Hn) as (_ & _ & _ & Hb).
  exists (needs_back_blank total_pages). split; [ exact Hb | ].
  apply needs_back_blank_mod_4_exact.
Qed.

Lemma needs_back_blank_mod_4_witness :
  - 2 ^ 53 <= 6 <= 2 ^ 53
  /\ exists blank,
       Binary64.needs_back_blank 6 = Some blank
       /\ (blank = true <-> 6 mod 4 = 1 \/ 6 mod 4 = 2).
Proof.
  assert (H : - 2 ^ 53 <= 6 <= 2 ^ 53) by (split; vm_compute; discriminate).
  split; [ exact H | apply (needs_back_blank_mod_4 6 H) ].
Defined.

(** X3.  For a page count of magnitude at most [2^53], the front selection
    is empty exactly when there are no pages (a count of zero or below), and
    then the back selection is empty too. *)
Theorem no_pages_no_selection (total_pages : Z) :
  - 2 ^ 53 <= total_pages <= 2 ^ 53 ->
  exists front back,
    Binary64.get_front_pages total_pages = Some front
    /\ Binary64.get_back_pages total_pages = Some back
    /\ (front = [] <-> total_pages <= 0)
    /\ (front = [] -> back = []).
Proof.
  intros Hn. destruct (binary64_agrees _ Hn) as (_ & Hf & Hb & _).
  exists (get_front_pages total_pages), (get_back_pages total_pages).
  split; [ exact Hf | ]. split; [ exact Hb | ].
  apply no_pages_no_selection_exact.
Qed.

Lemma no_pages_no_selection_witness :
  - 2 ^ 53 <= -4 <= 2 ^ 53
  /\ exists front back,
       Binary64.get_front_pages (-4) = Some front
       /\ Binary64.get_back_pages (-4) = Some back
       /\ (front = [] <-> -4 <= 0)
       /\ (front = [] -> back = []).
Proof.
  assert (H : - 2 ^ 53 <= -4 <= 2 ^ 53) by (split; vm_compute; discriminate).
  split; [ exact H | apply (no_pages_no_selection (-4) H) ].
Defined.

(** X4.  For a page count from 0 to [2^53], the sizes of the selections in
    closed form: the front takes two pages of every four and up to two of
    the remainder, the back the rest; so the front never holds fewer pages
    than the back, and at most two more. *)
Theorem selection_sizes (total_pages : Z) :
  0 <= total_pages <= 2 ^ 53 ->
  exists front back,
    Binary64.get_front_pages total_pages = Some front
    /\ Binary64.get_back_pages total_pages = Some back
    /\ Py.len front = 2 * (total_pages / 4) + Z.min 2 (total_pages mod 4)
    /\ Py.len back = 2 * (total_pages / 4) + Z.max 0 (total_pages mod 4 - 2)
    /\ Py.len back <= Py.len front <= Py.len back + 2.
Proof.
  intros Hn. destruct (binary64_agrees_nonneg _ Hn) as (_ & Hf & Hb & _).
  exists (get_front_pages total_pages), (get_back_pages total_pages).
  split; [ exact Hf | ]. split; [ exact Hb | ].
  apply selection_sizes_exact. lia.
Qed.

Lemma selection_sizes_witness :
  0 <= 10 <= 2 ^ 53
  /\ exists front back,
       Binary64.get_front_pages 10 = Some front
       /\ Binary64.get_back_pages 10 = Some back
       /\ Py.len front = 2 * (10 / 4) + Z.min 2 (10 mod 4)
       /\ Py.len back = 2 * (10 / 4) + Z.max 0 (10 mod 4 - 2)
       /\ Py.len back <= Py.len front <= Py.len back + 2.
Proof.
  assert (H : 0 <= 10 <= 2 ^ 53) by (split; vm_compute; discriminate).
  split; [ exact H | apply (selection_sizes 10 H) ].
Defined.

(** X19.  For a page count from 0 to [2^53] the front and back selections
    partition the pages: their lengths add up to the page count, a page is
    in one of them exactly when it is one of [1 .. pageCount], and no page
    occurs twice, neither within one selection nor across the two. *)
Theorem selections_partition_pages (pageCount : Z) :
  0 <= pageCount <= 2 ^ 53 ->
  exists front back,
    Binary64.get_front_pages pageCount = Some front
    /\ Binary64.get_back_pages pageCount = Some back
    /\ Py.len front + Py.len back = pageCount
    /\ (forall p, In p front \/ In p back <-> 1 <= p <= pageCount)
    /\ NoDup front
    /\ NoDup back
    /\ (forall p, In p front -> ~ In p back)
    /\ NoDup (front ++ back).
Proof.
  intros Hn. destruct (binary64_agrees_nonneg _ Hn) as (_ & Hf & Hb & _).
  destruct Hn as [Hn _].
  exists (get_front_pages pageCount), (get_back_pages pageCount).
  split; [ exact Hf | ]. split; [ exact Hb | ].
  repeat match goal with |- _ /\ _ => split end.
  - pose proof (Permutation_length (front_back_permutation pageCount Hn)) as Hl.
    pose proof (all_pages_len pageCount Hn) as Ha.
    unfold Py.len in *. rewrite length_app in Hl. lia.
  - intros p. now apply in_front_or_back.
  - apply sorted_lt_NoDup, front_pages_sorted.
  - apply sorted_lt_NoDup, back_pages_sorted.
  - intros p. now apply front_back_disjoint.
  - now apply front_back_NoDup.
Qed.

Lemma selections_partition_pages_witness :
  0 <= 5 <= 2 ^ 53
  /\ exists front back,
       Binary64.get_front_pages 5 = Some front
       /\ Binary64.get_back_pages 5 = Some back
       /\ Py.len front + Py.len back = 5
       /\ (forall p, In p front \/ In p back <-> 1 <= p <= 5)
       /\ NoDup front
       /\ NoDup back
       /\ (forall p, In p front -> ~ In p back)
       /\ NoDup (front ++ back).
Proof.
  assert (H : 0 <= 5 <= 2 ^ 53) by (split; vm_compute; discriminate).
  split; [ exact H | apply (selections_partition_pages 5 H) ].
Defined.

(** X20.  For a page count from 0 to [2^53], [num_physical_sheets] is the
    ceiling of half the page count; the sheet counts of the two passes,
    [math.ceil(len(pages) / 2)] as the script computes them, are half the
    sheets rounded up for the front and rounded down for the back, so they
    add up to the sheet count, and when that is odd the front pass has one
    sheet more than the back pass; [needs_back_blank] tells whether it is
    odd. *)
Theorem sheets_add_up (pageCount : Z) :
  0 <= pageCount <= 2 ^ 53 ->
  exists sheets front back front_sheets back_sheets blank,
    Binary64.num_physical_sheets pageCount = Some sheets
    /\ Binary64.get_front_pages pageCount = Some front
    /\ Binary64.get_back_pages pageCount = Some back
    /\ Binary64.needs_back_blank pageCount = Some blank
    /\ Float53.ceil_truediv2 (Py.len front) = Some front_sheets
    /\ Float53.ceil_truediv2 (Py.len back) = Some back_sheets
    /\ (pageCount <= 2 * sheets /\ 2 * (sheets - 1) < pageCount)
    /\ front_sheets = (sheets + 1) / 2
    /\ back_sheets = sheets / 2
    /\ (front <> [] -> back <> [] -> front_sheets + back_sheets = sheets)
    /\ (Z.odd sheets = true -> front_sheets = back_sheets + 1)
    /\ blank = Z.odd sheets.
Proof.
  intros Hn.
  destruct (binary64_agrees_nonneg _ Hn) as (Hs & Hf & Hb & Hblank).
  pose proof pow_2_53_pos as Hpos.
  assert (H0 : 0 <= pageCount) by lia.
  pose proof (Permutation_length (front_back_permutation pageCount H0)) as Hl.
  pose proof (all_pages_len pageCount H0) as Ha.
  unfold Py.len in Ha. rewrite <- Hl, length_app in Ha.
  assert (Hfl : - 2 ^ 53 <= Py.len (get_front_pages pageCount) <= 2 ^ 53)
    by (unfold Py.len; lia).
  assert (Hbl : - 2 ^ 53 <= Py.len (get_back_pages pageCount) <= 2 ^ 53)
    by (unfold Py.len; lia).
  pose proof (front_half pageCount H0) as Hfh.
  pose proof (back_half pageCount H0) as Hbh.
  pose proof (num_physical_sheets_ceiling pageCount) as Hc.
  exists (num_physical_sheets pageCount), (get_front_pages pageCount),
    (get_back_pages pageCount), ((num_physical_sheets pageCount + 1) / 2),
    (num_physical_sheets pageCount / 2), (needs_back_blank pageCount).
  split; [ exact Hs | ]. split; [ exact Hf | ]. split; [ exact Hb | ].
  split; [ exact Hblank | ].
  split; [ rewrite (ceil_truediv2_small _ Hfl); f_equal; exact Hfh | ].
  split; [ rewrite (ceil_truediv2_small _ Hbl); f_equal; exact Hbh | ].
  split; [ exact Hc | ]. split; [ reflexivity | ]. split; [ reflexivity | ].
  pose proof (Zmod_odd (num_physical_sheets pageCount)) as Hm.
  split; [ | split ].
  - intros _ _. Z.div_mod_to_equations; lia.
  - intros Ho. rewrite Ho in Hm. Z.div_mod_to_equations; lia.
  - unfold needs_back_blank. rewrite Hm.
    destruct (Z.odd (num_physical_sheets pageCount)); reflexivity.
Qed.

Lemma sheets_add_up_witness :
  0 <= 5 <= 2 ^ 53
  /\ exists sheets front back front_sheets back_sheets blank,
       Binary64.num_physical_sheets 5 = Some sheets
       /\ Binary64.get_front_pages 5 = Some front
       /\ Binary64.get_back_pages 5 = Some back
       /\ Binary64.needs_back_blank 5 = Some blank
       /\ Float53.ceil_truediv2 (Py.len front) = Some front_sheets
       /\ Float53.ceil_truediv2 (Py.len back) = Some back_sheets
       /\ (5 <= 2 * sheets /\ 2 * (sheets - 1) < 5)
       /\ front_sheets = (sheets + 1) / 2
       /\ back_sheets = sheets / 2
       /\ (front <> [] -> back <> [] -> front_sheets + back_sheets = sheets)
       /\ (Z.odd sheets = true -> front_sheets = back_sheets + 1)
       /\ blank = Z.odd sheets.
Proof.
  assert (H : 0 <= 5 <= 2 ^ 53) by (split; vm_compute; discriminate).
  split; [ exact H | apply (sheets_add_up 5 H) ].
Defined.

(** X21.  For a page count from 0 to [2^53] none of the engine's four
    functions raises, and every page of either selection lies in
    [1 .. pageCount]; so for a document of that many pages each lookup
    [reader.pages[p - 1]] has a nonnegative index below the length and
    returns a page. *)
Theorem selections_stay_in_document (pageCount : Z) :
  0 <= pageCount <= 2 ^ 53 ->
  exists sheets front back blank,
    Binary64.num_physical_sheets pageCount = Some sheets
    /\ Binary64.get_front_pages pageCount = Some front
    /\ Binary64.get_back_pages pageCount = Some back
    /\ Binary64.needs_back_blank pageCount = Some blank
    /\ Forall (fun p => 1 <= p <= pageCount) front
    /\ Forall (fun p => 1 <= p <= pageCount) back
    /\ (forall (reader : list Page) p,
          Py.len reader = pageCount ->
          In p front \/ In p back ->
          0 <= p - 1 < Py.len reader
          /\ exists page, Py.getitem reader (p - 1) = Py.Ok page).
Proof.
  intros Hn.
  destruct (binary64_agrees_nonneg _ Hn) as (Hs & Hf & Hb & Hblank).
  destruct Hn as [Hn _].
  exists (num_physical_sheets pageCount), (get_front_pages pageCount),
    (get_back_pages pageCount), (needs_back_blank pageCount).
  split; [ exact Hs | ]. split; [ exact Hf | ]. split; [ exact Hb | ].
  split; [ exact Hblank | ].
  split; [ now apply front_pages_in_bounds | ].
  split; [ now apply back_pages_in_bounds | ].
  intros reader p Hlen Hp. apply in_front_or_back in Hp; [ | exact Hn ].
  split; [ lia | ].
  destruct reader as [ | ref tail ].
  - change (Py.len (@nil Page)) with 0 in Hlen. lia.
  - exists (page_of (ref :: tail) ref p). apply reader_lookup.
    unfold in_document. lia.
Qed.

Lemma selections_stay_in_document_witness :
  0 <= 3 <= 2 ^ 53
  /\ exists sheets front back blank,
       Binary64.num_physical_sheets 3 = Some sheets
       /\ Binary64.get_front_pages 3 = Some front
       /\ Binary64.get_back_pages 3 = Some back
       /\ Binary64.needs_back_blank 3 = Some blank
       /\ Forall (fun p => 1 <= p <= 3) front
       /\ Forall (fun p => 1 <= p <= 3) back
       /\ (forall (reader : list Page) p,
             Py.len reader = 3 ->
             In p front \/ In p back ->
             0 <= p - 1 < Py.len reader
             /\ exists page, Py.getitem reader (p - 1) = Py.Ok page).
Proof.
  assert (H : 0 <= 3 <= 2 ^ 53) by (split; vm_compute; discriminate).
  split; [ exact H | apply (selections_stay_in_document 3 H) ].
Defined.


(** ** The documents [print_pdf] submits *)

Lemma pair_up_blocks (rp : Z -> Page) (n : Z) (c : nat) (a : Z) :
  (c = 0%nat \/ 2 * (a + 2 * (Z.of_nat c - 1)) + 1 <= n) ->
  pair_up rp (concat (map (sheet_pages n) (Py.range_from c a 2)))
  = map (fun s => make_2up_sheet
                    (rp (2 * s + 1))
                    (if 2 * s + 2 <=? n then Some (rp (2 * s + 2)) else None))
        (Py.range_from c a 2).
Proof.
  revert a. induction c as [ | c IH ]; intros a Hlast.
  - reflexivity.
  - destruct Hlast as [ Hc | Hlast ]; [ discriminate | ].
    cbn [Py.range_from map concat]. unfold sheet_pages at 1.
    destruct c as [ | c ].
    + cbn [Py.range_from map concat]. rewrite app_nil_r.
      destruct (2 * a + 2 <=? n); reflexivity.
    + destruct (Z.leb_spec (2 * a + 2) n); [ | lia ].
      cbn [app pair_up]. f_equal. apply IH. right. lia.
Qed.

Lemma pair_up_selection (rp : Z -> Page) (n a b : Z) :
  b <= num_physical_sheets n ->
  pair_up rp (concat (map (sheet_pages n) (Py.range a b 2)))
  = map (fun s => make_2up_sheet
                    (rp (2 * s + 1))
                    (if 2 * s + 2 <=? n then Some (rp (2 * s + 2)) else None))
        (sheets_from a b).
Proof.
  intros Hb. rewrite <- range_sheets_from. unfold Py.range.
  apply pair_up_blocks.
  rewrite num_physical_sheets_eq in Hb.
  destruct (Z.to_nat ((b - a + 2 - 1) / 2)) as [ | c ] eqn:E;
    [ now left | right ].
  rewrite <- E.
  assert (0 < (b - a + 2 - 1) / 2) by lia.
  rewrite Z2Nat.id by lia. Z.div_mod_to_equations; lia.
Qed.

Lemma front_pages_nonempty (ref : Page) (tail : list Page) :
  get_front_pages (Py.len (ref :: tail)) <> [].
Proof.
  intros He.
  assert (Hin : In 1 (get_front_pages (Py.len (ref :: tail)))).
  { apply in_front_pages; [ apply len_nonneg | ].
    rewrite len_cons. pose proof (len_nonneg tail).
    split; [ lia | reflexivity ]. }
  rewrite He in Hin. destruct Hin.
Qed.

Lemma front_document (ref : Page) (tail : list Page) :
  print_pdf (ref :: tail) "front"
  = Py.Ok (Submitted
             (map (physical_sheet (ref :: tail) ref)
                  (sheets_from 0 (num_physical_sheets (Py.len (ref :: tail)))))).
Proof.
  assert (Hsel : select_pass (Py.len (ref :: tail)) "front"
                 = (get_front_pages (Py.len (ref :: tail)), false))
    by reflexivity.
  destruct (print_pdf_submits _ _ _ _ Hsel (front_pages_nonempty ref tail))
    as (r & t & Hr & Hp).
  injection Hr as <- <-. rewrite Hp, app_nil_r. do 2 f_equal.
  unfold get_front_pages. rewrite fold_append_sheet, app_nil_l.
  apply pair_up_selection. lia.
Qed.

Lemma back_document (ref : Page) (tail : list Page) :
  print_pdf (ref :: tail) "back"
  = Py.Ok (Submitted
             (map (physical_sheet (ref :: tail) ref)
                  (sheets_from 1 (num_physical_sheets (Py.len (ref :: tail))))
              ++ (if needs_back_blank (Py.len (ref :: tail))
                  then [blank_sheet ref] else []))).
Proof.
  destruct (get_back_pages (Py.len (ref :: tail))) as [ | p pages ] eqn:E.
  - apply back_pages_nil_iff in E; [ | apply len_nonneg ].
    destruct tail as [ | b [ | c tail ] ]; try reflexivity.
    exfalso. rewrite !len_cons in E. pose proof (len_nonneg tail). lia.
  - assert (Hsel : select_pass (Py.len (ref :: tail)) "back"
                   = (p :: pages, needs_back_blank (Py.len (ref :: tail)))).
    { unfold select_pass. cbn [String.eqb Ascii.eqb Bool.eqb andb].
      now rewrite E. }
    destruct (print_pdf_submits _ _ _ _ Hsel ltac:(discriminate))
      as (r & t & Hr & Hp).
    injection Hr as <- <-. rewrite Hp. do 3 f_equal.
    rewrite <- E. unfold get_back_pages.
    rewrite fold_append_sheet, app_nil_l.
    apply pair_up_selection. lia.
Qed.

Lemma sheets_from_len (a b : Z) :
  Py.len (sheets_from a b) = Z.max 0 ((b - a + 1) / 2).
Proof. unfold Py.len, sheets_from. rewrite length_map, length_seq. lia. Qed.

Lemma len_map {A B : Type} (f : A -> B) (l : list A) :
  Py.len (map f l) = Py.len l.
Proof. unfold Py.len. now rewrite length_map. Qed.

(** X5.  Stack alignment.  For a document with at least one page the front
    and the back pass of [print_pdf] submit the same number of sheets, half
    the physical sheets rounded up; for an empty document every pass is
    skipped. *)
Theorem passes_use_equal_sheets (ref : Page) (tail : list Page) :
  (exists front back,
     print_pdf (ref :: tail) "front" = Py.Ok (Submitted front)
     /\ print_pdf (ref :: tail) "back" = Py.Ok (Submitted back)
     /\ Py.len front = Py.len back
     /\ Py.len front
        = (num_physical_sheets (Py.len (ref :: tail)) + 1) / 2)
  /\ (forall side, print_pdf [] side = Py.Ok Skipped).
Proof.
  split.
  - eexists. eexists.
    split; [ apply front_document | ]. split; [ apply back_document | ].
    rewrite len_app, !len_map, !sheets_from_len.
    pose proof (num_physical_sheets_ceiling (Py.len (ref :: tail))) as Hc.
    assert (Hlen : 1 <= Py.len (ref :: tail))
      by (rewrite len_cons; pose proof (len_nonneg tail); lia).
    unfold needs_back_blank.
    destruct (Z.eqb_spec (num_physical_sheets (Py.len (ref :: tail)) mod 2) 1);
      [ change (Py.len [blank_sheet ref]) with 1
      | change (Py.len (@nil Sheet)) with 0 ];
      split; Z.div_mod_to_equations; lia.
  - intros side. unfold print_pdf, select_pass.
    change (Py.len (@nil Page)) with 0.
    change (num_physical_sheets 0) with 0. change (1 <=? 0) with false.
    rewrite andb_false_r.
    destruct (String.eqb side "front"); reflexivity.
Qed.

(** X6.  The sheets of each pass are the physical sheets of the document:
    the front pass submits sheets 0, 2, 4, ... (0-based), the back pass
    sheets 1, 3, 5, ... followed by the blank when it is owed; sheet [s]
    holds page [2s + 1] on the left and page [2s + 2], when the document has
    it, on the right. *)
Theorem passes_submit_physical_sheets (ref : Page) (tail : list Page) :
  let reader := ref :: tail in
  let sheets := num_physical_sheets (Py.len reader) in
  print_pdf reader "front"
  = Py.Ok (Submitted (map (physical_sheet reader ref) (sheets_from 0 sheets)))
  /\ print_pdf reader "back"
     = Py.Ok (Submitted
                (map (physical_sheet reader ref) (sheets_from 1 sheets)
                 ++ (if needs_back_blank (Py.len reader)
                     then [blank_sheet ref] else [])))
  /\ (forall s,
        physical_sheet reader ref s
        = make_2up_sheet
            (page_of reader ref (2 * s + 1))
            (if 2 * s + 2 <=? Py.len reader
             then Some (page_of reader ref (2 * s + 2)) else None)).
Proof.
  cbv zeta. split; [ apply front_document | ].
  split; [ apply back_document | reflexivity ].
Qed.

(** X7.  The blank-only branch of [print_pdf] gives what the general path
    gives: for every document with a page, the back pass submits the
    document [build_print_pdf] builds from the back selection and the flag
    [needs_back_blank], also when that selection is empty. *)
Theorem back_pass_is_build_print_pdf (ref : Page) (tail : list Page) :
  let reader := ref :: tail in
  print_pdf reader "back"
  = (document <- build_print_pdf reader (get_back_pages (Py.len reader))
                                 (needs_back_blank (Py.len reader)) ;;
     Py.Ok (Submitted document)).
Proof.
  cbv zeta.
  destruct (get_back_pages (Py.len (ref :: tail))) as [ | p pages ] eqn:E.
  - pose proof E as E'.
    apply back_pages_nil_iff in E'; [ | apply len_nonneg ].
    destruct tail as [ | b [ | c tail ] ]; try reflexivity.
    exfalso. rewrite !len_cons in E'. pose proof (len_nonneg tail). lia.
  - unfold print_pdf, select_pass. cbn [String.eqb Ascii.eqb Bool.eqb andb].
    cbv zeta. rewrite E. reflexivity.
Qed.

(** ** When [build_print_pdf] raises *)

Lemma getitem_cases {A : Type} (l : list A) (i : Z) :
  (- Py.len l <= i < Py.len l /\ exists a, Py.getitem l i = Py.Ok a /\ In a l)
  \/ (~ (- Py.len l <= i < Py.len l) /\ Py.getitem l i = Py.Raise Py.IndexError).
Proof.
  unfold Py.getitem. cbv zeta.
  set (j := if i <? 0 then Py.len l + i else i).
  assert (Hj : (- Py.len l <= i < Py.len l) <-> 0 <= j < Py.len l).
  { subst j. pose proof (len_nonneg l).
    destruct (Z.ltb_spec i 0); lia. }
  destruct (Z.ltb_spec j 0) as [ Hlt | Hge ]; cbn [orb].
  - right. split; [ lia | reflexivity ].
  - destruct (Z.leb_spec (Py.len l) j) as [ Hle | Hlt ].
    + right. split; [ lia | reflexivity ].
    + left. split; [ lia | ].
      destruct (nth_error l (Z.to_nat j)) as [ a | ] eqn:E.
      * exists a. split; [ reflexivity | ]. eapply nth_error_In, E.
      * exfalso. apply nth_error_None in E. unfold Py.len in Hlt. lia.
Qed.

Lemma getitem_indexable (reader : list Page) (ref : Page) (p : Z) :
  Py.getitem reader (p - 1)
  = if indexable reader p
    then Py.Ok (page_at reader ref p)
    else Py.Raise Py.IndexError.
Proof.
  unfold indexable, page_at.
  destruct (getitem_cases reader (p - 1)) as [ (Hr & a & -> & _) | (Hr & ->) ].
  - destruct (Z.leb_spec (1 - Py.len reader) p); [ | lia ].
    destruct (Z.leb_spec p (Py.len reader)); [ | lia ]. reflexivity.
  - destruct (Z.leb_spec (1 - Py.len reader) p);
      destruct (Z.leb_spec p (Py.len reader)); cbn [andb];
      try reflexivity; lia.
Qed.

Lemma page_at_in (reader : list Page) (ref : Page) (p : Z) :
  page_at reader ref p = ref \/ In (page_at reader ref p) reader.
Proof.
  unfold page_at.
  destruct (getitem_cases reader (p - 1)) as [ (_ & a & -> & Ha) | (_ & ->) ].
  - now right.
  - now left.
Qed.

(** The pairing loop on any selection: it stops at the first page number
    the document cannot index. *)
Lemma pairing_loop_cases (reader : list Page) (ref : Page) (rest : list Z) :
  forall (pre : list Z) (writer : list Sheet),
    for_each (add_pair reader (pre ++ rest))
             (Py.range_from (Z.to_nat ((Py.len rest + 1) / 2)) (Py.len pre) 2)
             writer
    = if forallb (indexable reader) rest
      then Py.Ok (writer ++ pair_up (page_at reader ref) rest)
      else Py.Raise Py.IndexError.
Proof.
  induction rest as [ | p | p q rest IH ] using list_ind2; intros pre writer.
  - cbn. now rewrite app_nil_r.
  - change (Z.to_nat ((Py.len [p] + 1) / 2)) with 1%nat.
    cbn [Py.range_from for_each forallb]. unfold add_pair.
    rewrite getitem_middle. cbn [Py.bind].
    rewrite (getitem_indexable reader ref p), andb_true_r.
    destruct (indexable reader p); cbn [Py.bind]; [ | reflexivity ].
    assert (E : (Py.len pre + 1 <? Py.len (pre ++ [p])) = false)
      by (rewrite len_app; apply Z.ltb_ge; change (Py.len [p]) with 1; lia).
    rewrite E. reflexivity.
  - replace (Z.to_nat ((Py.len (p :: q :: rest) + 1) / 2))
      with (S (Z.to_nat ((Py.len rest + 1) / 2))).
    2:{ rewrite !len_cons. pose proof (len_nonneg rest).
        assert (Hd : (Py.len rest + 1 + 1 + 1) / 2 = (Py.len rest + 1) / 2 + 1)
          by (Z.div_mod_to_equations; lia).
        assert (0 <= (Py.len rest + 1) / 2) by (Z.div_mod_to_equations; lia).
        rewrite Hd. lia. }
    cbn [Py.range_from for_each forallb]. unfold add_pair at 1.
    rewrite getitem_middle. cbn [Py.bind].
    rewrite (getitem_indexable reader ref p).
    destruct (indexable reader p); cbn [Py.bind andb]; [ | reflexivity ].
    assert (E : (Py.len pre + 1 <? Py.len (pre ++ p :: q :: rest)) = true)
      by (rewrite len_app, !len_cons; apply Z.ltb_lt;
          pose proof (len_nonneg rest); lia).
    rewrite E.
    replace (pre ++ p :: q :: rest) with ((pre ++ [p]) ++ q :: rest)
      by (rewrite <- app_assoc; reflexivity).
    replace (Py.len pre + 1) with (Py.len (pre ++ [p]))
      by (rewrite len_app; reflexivity).
    rewrite getitem_middle. cbn [Py.bind].
    rewrite (getitem_indexable reader ref q).
    destruct (indexable reader q); cbn [Py.bind andb]; [ | reflexivity ].
    replace ((pre ++ [p]) ++ q :: rest) with ((pre ++ [p; q]) ++ rest)
      by (rewrite <- !app_assoc; reflexivity).
    replace (Py.len pre + 2) with (Py.len (pre ++ [p; q]))
      by (rewrite len_app; reflexivity).
    rewrite IH.
    destruct (forallb (indexable reader) rest); [ | reflexivity ].
    cbn [pair_up]. rewrite <- app_assoc. reflexivity.
Qed.

Lemma build_print_pdf_cases (reader : list Page) (pages : list Z)
  (blank : bool) :
  build_print_pdf reader pages blank
  = match reader with
    | [] => Py.Raise Py.IndexError
    | ref :: _ =>
        if forallb (indexable reader) pages
        then Py.Ok (pair_up (page_at reader ref) pages
                    ++ (if blank then [blank_sheet ref] else []))
        else Py.Raise Py.IndexError
    end.
Proof.
  destruct reader as [ | ref tail ]; [ reflexivity | ].
  unfold build_print_pdf.
  change (Py.getitem (ref :: tail) 0) with (Py.Ok ref). cbn [Py.bind].
  unfold Py.range.
  replace (Py.len pages - 0 + 2 - 1) with (Py.len pages + 1) by lia.
  pose proof (pairing_loop_cases (ref :: tail) ref pages [] []) as Hloop.
  cbn [app] in Hloop. change (Py.len (@nil Z)) with 0 in Hloop.
  rewrite Hloop.
  destruct (forallb (indexable (ref :: tail)) pages); [ | reflexivity ].
  cbn [Py.bind]. destruct blank; [ reflexivity | now rewrite app_nil_r ].
Qed.

(** X8.  [build_print_pdf] returns a document exactly when the source
    document has a page and every selected number [p] is one its page list
    can index, [1 - len <= p <= len] (Python reads [p <= 0] from the end);
    in every other case it raises [IndexError], and nothing else. *)
Theorem build_print_pdf_raises (reader : list Page) (pages : list Z)
  (blank : bool) :
  ((exists document, build_print_pdf reader pages blank = Py.Ok document)
   <-> reader <> [] /\
       Forall (fun p => 1 - Py.len reader <= p <= Py.len reader) pages)
  /\ (forall e, build_print_pdf reader pages blank = Py.Raise e ->
                e = Py.IndexError).
Proof.
  rewrite build_print_pdf_cases.
  assert (Hall : forallb (indexable reader) pages = true
                 <-> Forall (fun p => 1 - Py.len reader <= p <= Py.len reader)
                            pages).
  { rewrite forallb_forall, Forall_forall. unfold indexable.
    split; intros H p Hp; specialize (H p Hp); lia. }
  destruct reader as [ | ref tail ].
  - split; [ split | ].
    + intros [doc Hdoc]. discriminate.
    + intros [Hne _]. contradiction.
    + intros e He. congruence.
  - destruct (forallb (indexable (ref :: tail)) pages) eqn:E.
    + split; [ split | ].
      * intros _. split; [ discriminate | now apply Hall ].
      * intros _. eexists. reflexivity.
      * intros e He. discriminate.
    + split; [ split | ].
      * intros [doc Hdoc]. discriminate.
      * intros [_ Hf]. apply Hall in Hf. discriminate.
      * intros e He. congruence.
Qed.

(** ** Occupancy and geometry of the sheets *)

Lemma pair_up_occupancy (rp : Z -> Page) (pages : list Z) :
  Forall (fun sh => length (merged sh) = 2%nat) (removelast (pair_up rp pages))
  /\ (pages <> [] ->
      forall d,
        length (merged (last (pair_up rp pages) d))
        = if Z.odd (Py.len pages) then 1%nat else 2%nat).
Proof.
  induction pages as [ | p | p q rest [IHa IHb] ] using list_ind2.
  - split; [ constructor | intros H; contradiction ].
  - split; [ constructor | intros _ d; reflexivity ].
  - cbn [pair_up]. split.
    + destruct rest as [ | r rest ]; [ constructor | ].
      assert (Hne : pair_up rp (r :: rest) <> [])
        by (destruct rest; discriminate).
      destruct (pair_up rp (r :: rest)) as [ | sh shs ] eqn:E;
        [ contradiction | ].
      cbn [removelast] in *. constructor; [ reflexivity | exact IHa ].
    + intros _ d. rewrite !len_cons.
      replace (Py.len rest + 1 + 1) with (Z.succ (Z.succ (Py.len rest))) by lia.
      rewrite Z.odd_succ_succ.
      destruct rest as [ | r rest ]; [ reflexivity | ].
      assert (Hne : pair_up rp (r :: rest) <> [])
        by (destruct rest; discriminate).
      specialize (IHb ltac:(discriminate) d).
      destruct (pair_up rp (r :: rest)) as [ | sh shs ] eqn:E;
        [ contradiction | ].
      exact IHb.
Qed.

Lemma pair_up_placement (rp : Z -> Page) (pages : list Z) :
  Forall (fun sh =>
            exists left,
              sheet_width sh = (mediabox_width left * 2)%Q /\
              sheet_height sh = mediabox_height left /\
              (merged sh = [(left, (0, 0)%Q)] \/
               exists right,
                 merged sh = [(left, (0, 0)%Q);
                              (right, (mediabox_width left, 0)%Q)]))
         (pair_up rp pages).
Proof.
  induction pages as [ | p | p q rest IH ] using list_ind2.
  - constructor.
  - constructor; [ | constructor ].
    exists (rp p). repeat split. now left.
  - cbn [pair_up]. constructor; [ | exact IH ].
    exists (rp p). repeat split. right. now exists (rp q).
Qed.

(** X9.  In the document [build_print_pdf] writes without a blank, every
    sheet but the last carries two pages, and the last carries one page
    exactly when the selection has an odd length; each sheet is as high as
    its left page and twice as wide, with the left page at the origin and
    the right page shifted by the left page's width. *)
Theorem sheets_are_filled_in_order (reader : list Page) (pages : list Z)
  (document : list Sheet) :
  build_print_pdf reader pages false = Py.Ok document ->
  Forall (fun sh => length (merged sh) = 2%nat) (removelast document)
  /\ (pages <> [] ->
      forall d,
        length (merged (last document d))
        = if Z.odd (Py.len pages) then 1%nat else 2%nat)
  /\ Forall (fun sh =>
               exists left,
                 sheet_width sh = (mediabox_width left * 2)%Q /\
                 sheet_height sh = mediabox_height left /\
                 (merged sh = [(left, (0, 0)%Q)] \/
                  exists right,
                    merged sh = [(left, (0, 0)%Q);
                                 (right, (mediabox_width left, 0)%Q)]))
            document.
Proof.
  rewrite build_print_pdf_cases.
  destruct reader as [ | ref tail ]; [ discriminate | ].
  destruct (forallb (indexable (ref :: tail)) pages); [ | discriminate ].
  rewrite app_nil_r. intros H. injection H as <-.
  split; [ apply pair_up_occupancy | ].
  split; [ apply pair_up_occupancy | apply pair_up_placement ].
Qed.

Lemma sheets_are_filled_in_order_witness :
  let reader := [mkPage 595 842 10; mkPage 595 842 11; mkPage 595 842 12] in
  let document :=
    [make_2up_sheet (mkPage 595 842 10) (Some (mkPage 595 842 11));
     make_2up_sheet (mkPage 595 842 12) None] in
  build_print_pdf reader [1; 2; 3] false = Py.Ok document
  /\ Forall (fun sh => length (merged sh) = 2%nat) (removelast document)
  /\ ([1; 2; 3] <> [] ->
      forall d,
        length (merged (last document d))
        = if Z.odd (Py.len [1; 2; 3]) then 1%nat else 2%nat)
  /\ Forall (fun sh =>
               exists left,
                 sheet_width sh = (mediabox_width left * 2)%Q /\
                 sheet_height sh = mediabox_height left /\
                 (merged sh = [(left, (0, 0)%Q)] \/
                  exists right,
                    merged sh = [(left, (0, 0)%Q);
                                 (right, (mediabox_width left, 0)%Q)]))
            document.
Proof.
  cbv zeta. split; [ reflexivity | ].
  apply (sheets_are_filled_in_order
           [mkPage 595 842 10; mkPage 595 842 11; mkPage 595 842 12]
           [1; 2; 3]).
  reflexivity.
Defined.

(** X10.  When every page of the source document has the media box of the
    first one, every sheet [build_print_pdf] writes, the blank included, is
    as high as a page and twice as wide. *)
Theorem sheets_have_one_size (ref : Page) (tail : list Page) (pages : list Z)
  (blank : bool) (document : list Sheet) :
  same_size ref (ref :: tail) ->
  build_print_pdf (ref :: tail) pages blank = Py.Ok document ->
  Forall (fun sh => sheet_width sh = (mediabox_width ref * 2)%Q /\
                    sheet_height sh = mediabox_height ref) document.
Proof.
  intros Hsame. rewrite build_print_pdf_cases.
  destruct (forallb (indexable (ref :: tail)) pages); [ | discriminate ].
  intros H. injection H as <-. apply Forall_app. split.
  - assert (Hpage : forall p,
              mediabox_width (page_at (ref :: tail) ref p) = mediabox_width ref
              /\ mediabox_height (page_at (ref :: tail) ref p)
                 = mediabox_height ref).
    { intros p. destruct (page_at_in (ref :: tail) ref p) as [ -> | Hin ].
      - split; reflexivity.
      - unfold same_size in Hsame. rewrite Forall_forall in Hsame.
        now apply Hsame. }
    induction pages as [ | p | p q rest IH ] using list_ind2.
    + constructor.
    + constructor; [ | constructor ].
      destruct (Hpage p) as [Hw Hh]. cbn. now rewrite Hw, Hh.
    + cbn [pair_up]. constructor; [ | exact IH ].
      destruct (Hpage p) as [Hw Hh]. cbn. now rewrite Hw, Hh.
  - destruct blank; repeat constructor.
Qed.

Lemma sheets_have_one_size_witness :
  let ref := mkPage 595 842 10 in
  let tail := [mkPage 595 842 11; mkPage 595 842 12] in
  let document :=
    [make_2up_sheet (mkPage 595 842 12) None; blank_sheet ref] in
  same_size ref (ref :: tail)
  /\ build_print_pdf (ref :: tail) [3] true = Py.Ok document
  /\ Forall (fun sh => sheet_width sh = (mediabox_width ref * 2)%Q /\
                       sheet_height sh = mediabox_height ref) document.
Proof.
  cbv zeta.
  assert (Hsame : same_size (mkPage 595 842 10)
                    [mkPage 595 842 10; mkPage 595 842 11; mkPage 595 842 12])
    by (repeat constructor).
  split; [ exact Hsame | ]. split; [ reflexivity | ].
  apply (sheets_have_one_size (mkPage 595 842 10)
           [mkPage 595 842 11; mkPage 595 842 12] [3] true).
  - exact Hsame.
  - reflexivity.
Defined.

(** ** Finding SumatraPDF *)

Lemma first_file_app (isfile : string -> bool) (pre : list string)
  (p : string) (post : list string) :
  Forall (fun q => isfile q = false) pre -> isfile p = true ->
  first_file isfile (pre ++ p :: post) = Some p.
Proof.
  induction 1 as [ | q pre Hq _ IH ]; intros Hp; cbn [app first_file].
  - now rewrite Hp.
  - rewrite Hq. now apply IH.
Qed.

Lemma first_file_some (isfile : string -> bool) (paths : list string)
  (p : string) :
  first_file isfile paths = Some p ->
  exists pre post,
    paths = pre ++ p :: post /\ isfile p = true /\
    Forall (fun q => isfile q = false) pre.
Proof.
  induction paths as [ | q paths IH ]; cbn [first_file]; [ discriminate | ].
  destruct (isfile q) eqn:Hq.
  - intros H. injection H as ->. exists [], paths. repeat split; auto.
  - intros H. destruct (IH H) as (pre & post & -> & Hp & Hpre).
    exists (q :: pre), post. repeat split; auto.
Qed.

Lemma first_file_none (isfile : string -> bool) (paths : list string) :
  first_file isfile paths = None <-> Forall (fun q => isfile q = false) paths.
Proof.
  induction paths as [ | q paths IH ]; cbn [first_file].
  - split; [ constructor | reflexivity ].
  - destruct (isfile q) eqn:Hq.
    + split; [ discriminate | ]. intros H. apply Forall_inv in H. congruence.
    + rewrite IH. split; [ now constructor | apply Forall_inv_tail ].
Qed.

(** X11.  [find_sumatra] returns the earliest of the configured paths that
    is a file, whatever [shutil.which] would find; it returns the result of
    [shutil.which] exactly when none of the configured paths is a file. *)
Theorem find_sumatra_prefers_configured (SUMATRA_PATHS : list string)
  (isfile : string -> bool) (which : option string) :
  (forall pre p post,
     SUMATRA_PATHS = pre ++ p :: post ->
     Forall (fun q => isfile q = false) pre -> isfile p = true ->
     find_sumatra SUMATRA_PATHS isfile which = Some p)
  /\ (Forall (fun q => isfile q = false) SUMATRA_PATHS ->
      find_sumatra SUMATRA_PATHS isfile which = which)
  /\ (forall p,
        find_sumatra SUMATRA_PATHS isfile which = Some p ->
        (exists pre post,
           SUMATRA_PATHS = pre ++ p :: post /\ isfile p = true /\
           Forall (fun q => isfile q = false) pre)
        \/ (Forall (fun q => isfile q = false) SUMATRA_PATHS /\
            which = Some p)).
Proof.
  unfold find_sumatra. repeat match goal with |- _ /\ _ => split end.
  - intros pre p post -> Hpre Hp. now rewrite first_file_app.
  - intros Hnone. apply first_file_none in Hnone. now rewrite Hnone.
  - intros p. destruct (first_file isfile SUMATRA_PATHS) as [ q | ] eqn:E.
    + intros H. injection H as ->. left. now apply first_file_some.
    + intros H. right. split; [ now apply first_file_none | exact H ].
Qed.

(** ** Failures of the win32 backend *)

(** X12.  When pywin32 is missing [print_via_win32] exits with status 1;
    when there is no default printer to read, or the target printer is not
    installed, it raises a win32 error.  In all three cases nothing is
    handed to the shell and the system is left exactly as it was. *)
Theorem print_via_win32_failures (env : Win32.Env) (pdf_path printer : string)
  (w : Win32.World) :
  (Win32.pywin32_found env = false ->
   Win32.print_via_win32 env pdf_path printer w
   = (Py.Raise (Py.SystemExit 1), w))
  /\ (Win32.pywin32_found env = true ->
      Win32.default_printer w = None ->
      Win32.print_via_win32 env pdf_path printer w
      = (Py.Raise Py.Win32Error, w))
  /\ (Win32.pywin32_found env = true ->
      forall original,
        Win32.default_printer w = Some original ->
        In original (Win32.installed w) ->
        ~ In printer (Win32.installed w) ->
        Win32.print_via_win32 env pdf_path printer w
        = (Py.Raise Py.Win32Error, w)).
Proof.
  unfold Win32.print_via_win32. repeat match goal with |- _ /\ _ => split end.
  - intros ->. reflexivity.
  - intros -> Hd. cbn [negb].
    unfold Win32.bind, Win32.GetDefaultPrinter. now rewrite Hd.
  - intros -> original Hd Ho Hp. cbn [negb].
    unfold Win32.bind at 1, Win32.GetDefaultPrinter. rewrite Hd.
    assert (Hrej : existsb (String.eqb printer) (Win32.installed w) = false).
    { destruct (existsb _ _) eqn:E; [ | reflexivity ].
      apply existsb_exists in E. destruct E as (x & Hx & Heq).
      apply String.eqb_eq in Heq. subst x. contradiction. }
    unfold Win32.try_finally, Win32.bind, Win32.SetDefaultPrinter.
    rewrite Hrej, (installed_accepted _ _ Ho).
    destruct w as [d i sp]. cbn in *. now rewrite Hd.
Qed.

(** ** Temporary files and the batch *)

Lemma filter_not_named (name : string) (fs : list (string * list Sheet)) :
  existsb (IO.named name) fs = false ->
  filter (fun f => negb (IO.named name f)) fs = fs.
Proof.
  induction fs as [ | f fs IH ]; cbn [existsb filter]; [ reflexivity | ].
  intros H. apply orb_false_iff in H. destruct H as [Hf Hfs].
  rewrite Hf. cbn [negb]. now rewrite IH.
Qed.

Lemma fresh_not_named (name : string) (fs : list (string * list Sheet)) :
  ~ In name (map fst fs) -> existsb (IO.named name) fs = false.
Proof.
  intros Hn. destruct (existsb (IO.named name) fs) eqn:E; [ | reflexivity ].
  apply existsb_exists in E. destruct E as (f & Hf & Heq).
  unfold IO.named in Heq. apply String.eqb_eq in Heq.
  exfalso. apply Hn. rewrite Heq. now apply in_map.
Qed.

Lemma existsb_named_head (name : string) (doc : list Sheet)
  (fs : list (string * list Sheet)) :
  existsb (IO.named name) ((name, doc) :: fs) = true.
Proof.
  cbn [existsb]. unfold IO.named. cbn [fst]. now rewrite String.eqb_refl.
Qed.

Lemma filter_named_head (name : string) (doc : list Sheet)
  (fs : list (string * list Sheet)) :
  filter (fun f => negb (IO.named name f)) ((name, doc) :: fs)
  = filter (fun f => negb (IO.named name f)) fs.
Proof.
  cbn [filter]. unfold IO.named at 1. cbn [fst]. now rewrite String.eqb_refl.
Qed.

(** The [finally] clause that unlinks the temporary file, with either
    [except]: the outcome of the body stands, whether the unlink worked or
    not. *)
Lemma unlink_in_finally {A : Type} (env : IO.Env) (body : IO.M A)
  (catches : IO.exn -> bool) (name : string) (s : IO.System) :
  catches IO.OSError = true ->
  IO.try_finally body (IO.try_except_pass catches (IO.unlink env name)) s
  = (fst (body s), IO.after_unlink env name (snd (body s))).
Proof.
  intros Hc.
  unfold IO.try_finally, IO.try_except_pass, IO.unlink, IO.after_unlink.
  destruct (body s) as [r s1]. cbn [fst snd].
  destruct (existsb (IO.named name) (IO.files s1)
            && negb (IO.unlink_refused env name s1)).
  - reflexivity.
  - now rewrite Hc.
Qed.

Lemma send_to_printer_files (env : IO.Env) (pdf_path printer : string)
  (sumatra_exe : option string) (s : IO.System) :
  IO.files (snd (IO.send_to_printer env pdf_path printer sumatra_exe s))
  = IO.files s.
Proof.
  assert (Hwin : IO.files
                   (snd (IO.lift_win
                           (Win32.print_via_win32 (IO.win32 env) pdf_path
                                                  printer) s))
                 = IO.files s).
  { unfold IO.lift_win.
    destruct (Win32.print_via_win32 _ _ _ _) as [ [ a | e ] w ]; reflexivity. }
  unfold IO.send_to_printer. destruct sumatra_exe as [ exe | ]; [ | exact Hwin ].
  destruct (String.eqb exe EmptyString); [ exact Hwin | ].
  unfold IO.print_via_sumatra, IO.bind, IO.ret.
  destruct (IO.subprocess_run env _ (IO.win s)) as [ [ rc | e ] w ];
    reflexivity.
Qed.

(** [print_pdf] with its effects, in terms of the document of the pass. *)
Lemma print_pdf_unfolded (env : IO.Env) (pdf_path side printer : string)
  (sumatra_exe : option string) (s : IO.System) :
  IO.print_pdf env pdf_path side printer sumatra_exe s
  = match IO.PdfReader env pdf_path with
    | None => (IO.Raised IO.PdfReadError, s)
    | Some reader =>
        match print_pdf reader side with
        | Py.Raise e => (IO.Raised (IO.PyExn e), s)
        | Py.Ok Skipped => (IO.Done tt, s)
        | Py.Ok (Submitted document) =>
            match IO.NamedTemporaryFile env (map fst (IO.files s)) with
            | None => (IO.Raised IO.OSError, s)
            | Some name =>
                match IO.writer_write env name document with
                | IO.WriteFailed partial =>
                    (IO.Raised IO.OSError,
                     IO.mkSystem (IO.win s) ((name, partial) :: IO.files s))
                | IO.Written =>
                    (fst (IO.send_to_printer env name printer sumatra_exe
                            (IO.mkSystem (IO.win s)
                                         ((name, document) :: IO.files s))),
                     IO.after_unlink env name
                       (snd (IO.send_to_printer env name printer sumatra_exe
                               (IO.mkSystem (IO.win s)
                                            ((name, document) :: IO.files s)))))
                end
            end
        end
    end.
Proof.
  unfold IO.print_pdf, IO.bind at 1, IO.open_reader.
  destruct (IO.PdfReader env pdf_path) as [ reader | ]; [ | reflexivity ].
  unfold IO.ret at 1. unfold print_pdf. cbv zeta.
  destruct (select_pass (Py.len reader) side) as [pages blank].
  destruct pages as [ | p pages ].
  - destruct (String.eqb side "back"
              && (1 <=? num_physical_sheets (Py.len reader)));
      [ | reflexivity ].
    destruct (Py.getitem reader 0) as [ ref | e ]; [ | reflexivity ].
    cbn [Py.bind IO.lift_result].
    unfold IO.bind, IO.ret, IO.write_temp.
    destruct (IO.NamedTemporaryFile env (map fst (IO.files s))) as [ name | ];
      [ | reflexivity ].
    destruct (IO.writer_write env name _); [ | reflexivity ].
    now rewrite unlink_in_finally.
  - destruct (build_print_pdf reader (p :: pages) blank) as [ doc | e ];
      [ | reflexivity ].
    cbn [Py.bind IO.lift_result].
    unfold IO.bind, IO.ret, IO.write_temp.
    destruct (IO.NamedTemporaryFile env (map fst (IO.files s))) as [ name | ];
      [ | reflexivity ].
    destruct (IO.writer_write env name doc); [ | reflexivity ].
    now rewrite unlink_in_finally.
Qed.

(** X13.  What [print_pdf] does to the system.  A file [PdfReader] cannot
    open raises and changes nothing; a pass with nothing to print returns
    and changes nothing.  Otherwise a temporary file is created: if that
    fails it raises and changes nothing; if writing the document of the pass
    fails it raises and the file stays behind, unsent; if the write
    succeeds, [send_to_printer] is called on the file, its outcome -- return
    or exception -- is the outcome of [print_pdf], and the file is unlinked
    afterwards in either case, an unlink the system refuses leaving the file
    in place without any exception.  So [print_pdf] raises only what
    [PdfReader], the creation of the temporary file or [send_to_printer]
    raise. *)
Theorem print_pdf_effects (env : IO.Env) (pdf_path side printer : string)
  (sumatra_exe : option string) (s : IO.System) :
  (IO.PdfReader env pdf_path = None ->
   IO.print_pdf env pdf_path side printer sumatra_exe s
   = (IO.Raised IO.PdfReadError, s))
  /\ (forall reader,
        IO.PdfReader env pdf_path = Some reader ->
        print_pdf reader side = Py.Ok Skipped ->
        IO.print_pdf env pdf_path side printer sumatra_exe s = (IO.Done tt, s))
  /\ (forall reader document,
        IO.PdfReader env pdf_path = Some reader ->
        print_pdf reader side = Py.Ok (Submitted document) ->
        IO.NamedTemporaryFile env (map fst (IO.files s)) = None ->
        IO.print_pdf env pdf_path side printer sumatra_exe s
        = (IO.Raised IO.OSError, s))
  /\ (forall reader document name partial,
        IO.PdfReader env pdf_path = Some reader ->
        print_pdf reader side = Py.Ok (Submitted document) ->
        IO.NamedTemporaryFile env (map fst (IO.files s)) = Some name ->
        IO.writer_write env name document = IO.WriteFailed partial ->
        IO.print_pdf env pdf_path side printer sumatra_exe s
        = (IO.Raised IO.OSError,
           IO.mkSystem (IO.win s) ((name, partial) :: IO.files s)))
  /\ (forall reader document name,
        IO.PdfReader env pdf_path = Some reader ->
        print_pdf reader side = Py.Ok (Submitted document) ->
        IO.NamedTemporaryFile env (map fst (IO.files s)) = Some name ->
        IO.writer_write env name document = IO.Written ->
        let sent :=
          IO.send_to_printer env name printer sumatra_exe
            (IO.mkSystem (IO.win s) ((name, document) :: IO.files s)) in
        IO.print_pdf env pdf_path side printer sumatra_exe s
        = (fst sent, IO.after_unlink env name (snd sent))
        /\ IO.win (IO.after_unlink env name (snd sent)) = IO.win (snd sent)
        /\ IO.files (IO.after_unlink env name (snd sent))
           = if IO.unlink_refused env name (snd sent)
             then (name, document) :: IO.files s
             else filter (fun f => negb (IO.named name f)) (IO.files s))
  /\ (forall e,
        fst (IO.print_pdf env pdf_path side printer sumatra_exe s)
        = IO.Raised e ->
        (IO.PdfReader env pdf_path = None /\ e = IO.PdfReadError)
        \/ (e = IO.OSError /\
            (IO.NamedTemporaryFile env (map fst (IO.files s)) = None \/
             exists name document partial,
               IO.writer_write env name document = IO.WriteFailed partial))
        \/ exists name document,
             fst (IO.send_to_printer env name printer sumatra_exe
                    (IO.mkSystem (IO.win s) ((name, document) :: IO.files s)))
             = IO.Raised e).
Proof.
  rewrite print_pdf_unfolded.
  repeat match goal with |- _ /\ _ => split end.
  - intros ->. reflexivity.
  - intros reader -> ->. reflexivity.
  - intros reader document -> -> ->. reflexivity.
  - intros reader document name partial -> -> -> ->. reflexivity.
  - intros reader document name -> -> -> ->. cbv zeta.
    split; [ reflexivity | ].
    unfold IO.after_unlink.
    pose proof (send_to_printer_files env name printer sumatra_exe
                  (IO.mkSystem (IO.win s) ((name, document) :: IO.files s)))
      as Hfiles.
    destruct (IO.send_to_printer env name printer sumatra_exe _) as [r s1].
    cbn [snd IO.files] in *. rewrite Hfiles, existsb_named_head.
    destruct (IO.unlink_refused env name s1); cbn [negb andb].
    + split; [ reflexivity | exact Hfiles ].
    + split; [ reflexivity | ]. cbn [IO.files].
      apply filter_named_head.
  - intros e. destruct (IO.PdfReader env pdf_path) as [ reader | ].
    + destruct (print_pdf_total reader side) as [out ->].
      destruct out as [ document | ]; [ | discriminate ].
      destruct (IO.NamedTemporaryFile env (map fst (IO.files s)))
        as [ name | ].
      * destruct (IO.writer_write env name document) as [ | partial ] eqn:W.
        -- cbn [fst]. intros H. right. right. eexists. eexists. exact H.
        -- cbn [fst]. intros H. injection H as <-. right. left.
           split; [ reflexivity | ]. right. eexists. eexists. eexists. exact W.
      * cbn [fst]. intros H. injection H as <-. right. left.
        split; [ reflexivity | now left ].
    + cbn [fst]. intros H. injection H as <-. now left.
Qed.

Lemma print_pdf_keeps_files (env : IO.Env) (pdf_path side printer : string)
  (sumatra_exe : option string) (s : IO.System) :
  (forall name,
     IO.NamedTemporaryFile env (map fst (IO.files s)) = Some name ->
     ~ In name (map fst (IO.files s))) ->
  (forall name document, IO.writer_write env name document = IO.Written) ->
  (forall path s', IO.unlink_refused env path s' = false) ->
  IO.files (snd (IO.print_pdf env pdf_path side printer sumatra_exe s))
  = IO.files s.
Proof.
  intros Hfresh Hwrite Hunlink. rewrite print_pdf_unfolded.
  destruct (IO.PdfReader env pdf_path) as [ reader | ]; [ | reflexivity ].
  destruct (print_pdf reader side) as [ [ doc | ] | e ]; try reflexivity.
  destruct (IO.NamedTemporaryFile env (map fst (IO.files s))) as [ name | ]
    eqn:N; [ | reflexivity ].
  rewrite Hwrite. cbn [snd]. unfold IO.after_unlink.
  rewrite Hunlink, send_to_printer_files. cbn [negb IO.files].
  rewrite existsb_named_head. cbn [andb IO.files].
  rewrite filter_named_head.
  apply filter_not_named, fresh_not_named, Hfresh. reflexivity.
Qed.

(** X14.  With a system that stores the pages and does not refuse to remove
    a file, no temporary file outlives [print_pdf]: given that the name
    [NamedTemporaryFile] picks is not that of an existing temporary file,
    that writing the pages succeeds and that unlinking an existing file is
    not refused, then whatever the file, the side and the backend do --
    return or raise -- the temporary files after the call are those before
    it; and so they are after the whole batch, finished or not. *)
Theorem temp_file_removed (env : IO.Env) (pdf_path side printer : string)
  (sumatra_exe : option string) (s : IO.System) :
  (forall name,
     IO.NamedTemporaryFile env (map fst (IO.files s)) = Some name ->
     ~ In name (map fst (IO.files s))) ->
  (forall name document, IO.writer_write env name document = IO.Written) ->
  (forall path s', IO.unlink_refused env path s' = false) ->
  IO.files (snd (IO.print_pdf env pdf_path side printer sumatra_exe s))
  = IO.files s
  /\ forall pdf_files,
       IO.files
         (snd (IO.main_loop env pdf_files side printer sumatra_exe s))
       = IO.files s.
Proof.
  intros Hfresh Hwrite Hunlink.
  split; [ now apply print_pdf_keeps_files | ].
  intros pdf_files. revert s Hfresh.
  induction pdf_files as [ | f rest IH ]; intros s Hfresh; [ reflexivity | ].
  cbn [IO.main_loop]. unfold IO.bind.
  pose proof (print_pdf_keeps_files env f side printer sumatra_exe s
                Hfresh Hwrite Hunlink) as Hf.
  destruct (IO.print_pdf env f side printer sumatra_exe s) as [ [ u | e ] s1 ];
    cbn [snd] in Hf.
  - rewrite IH; [ exact Hf | now rewrite Hf ].
  - exact Hf.
Qed.

Lemma temp_file_removed_witness :
  let page := mkPage 595 842 1 in
  let env :=
    IO.mkEnv (Win32.mkEnv true (fun _ _ _ w => (Py.Raise Py.Win32Error, w)))
             (fun _ => Some [page; page; page])
             (fun _ w => (IO.Raised IO.OSError, w))
             (fun _ => Some "tmp1.pdf"%string)
             (fun _ _ => IO.Written)
             (fun _ _ => false) in
  let s := IO.mkSystem
             (Win32.mkWorld (Some "Office"%string)
                            ["Office"; "EPSON L130 Series"]%string [])
             [("tmp0.pdf"%string, [])] in
  (forall name,
     IO.NamedTemporaryFile env (map fst (IO.files s)) = Some name ->
     ~ In name (map fst (IO.files s)))
  /\ (forall name document, IO.writer_write env name document = IO.Written)
  /\ (forall path s', IO.unlink_refused env path s' = false)
  /\ IO.files (snd (IO.print_pdf env "a.pdf" "back" "EPSON L130 Series"
                                 None s))
     = IO.files s
  /\ forall pdf_files,
       IO.files (snd (IO.main_loop env pdf_files "back" "EPSON L130 Series"
                                   None s))
       = IO.files s.
Proof.
  cbv zeta.
  assert (Hfresh : forall name,
            Some "tmp1.pdf"%string = Some name ->
            ~ In name ["tmp0.pdf"%string])
    by (intros name H; injection H as <-; simpl; intros [ H | [] ];
        discriminate).
  split; [ exact Hfresh | ].
  split; [ reflexivity | ]. split; [ reflexivity | ].
  apply (temp_file_removed
           (IO.mkEnv
              (Win32.mkEnv true (fun _ _ _ w => (Py.Raise Py.Win32Error, w)))
              (fun _ => Some [mkPage 595 842 1; mkPage 595 842 1;
                              mkPage 595 842 1])
              (fun _ w => (IO.Raised IO.OSError, w))
              (fun _ => Some "tmp1.pdf"%string)
              (fun _ _ => IO.Written)
              (fun _ _ => false))
           "a.pdf" "back" "EPSON L130 Series" None
           (IO.mkSystem
              (Win32.mkWorld (Some "Office"%string)
                             ["Office"; "EPSON L130 Series"]%string [])
              [("tmp0.pdf"%string, [])])).
  - exact Hfresh.
  - reflexivity.
  - reflexivity.
Defined.

Lemma main_loop_app (env : IO.Env) (l1 l2 : list string)
  (side printer : string) (sumatra_exe : option string) (s : IO.System) :
  IO.main_loop env (l1 ++ l2) side printer sumatra_exe s
  = IO.bind (IO.main_loop env l1 side printer sumatra_exe)
            (fun _ => IO.main_loop env l2 side printer sumatra_exe) s.
Proof.
  revert s. induction l1 as [ | f l1 IH ]; intros s; [ reflexivity | ].
  cbn [app IO.main_loop]. unfold IO.bind in *.
  destruct (IO.print_pdf env f side printer sumatra_exe s) as [ [ u | e ] s1 ];
    [ | reflexivity ].
  apply IH.
Qed.

(** X15.  The batch has no isolation between documents: when [print_pdf]
    raises on a file -- [PdfReader] cannot open it, or the backend raises
    -- the loop ends with that exception in the state that call left, and
    the files after it are never opened or printed. *)
Theorem batch_stops_at_first_failure (env : IO.Env)
  (before : list string) (pdf_path : string) (after : list string)
  (side printer : string) (sumatra_exe : option string)
  (s s1 s2 : IO.System) (e : IO.exn) :
  IO.main_loop env before side printer sumatra_exe s = (IO.Done tt, s1) ->
  IO.print_pdf env pdf_path side printer sumatra_exe s1 = (IO.Raised e, s2) ->
  IO.main_loop env (before ++ pdf_path :: after) side printer sumatra_exe s
  = (IO.Raised e, s2).
Proof.
  intros Hbefore Hfail. rewrite main_loop_app. unfold IO.bind at 1.
  rewrite Hbefore. cbn [IO.main_loop]. unfold IO.bind. now rewrite Hfail.
Qed.

Lemma batch_stops_at_first_failure_witness :
  let page := mkPage 595 842 1 in
  let env :=
    IO.mkEnv (Win32.mkEnv true (fun _ _ _ w => (Py.Ok tt, w)))
             (fun path => if String.eqb path "b.pdf" then None
                          else Some [page; page; page])
             (fun cmd w =>
                (IO.Done 0,
                 Win32.mkWorld (Win32.default_printer w) (Win32.installed w)
                               ((nth 5 cmd EmptyString, nth 2 cmd EmptyString)
                                  :: Win32.spooled w)))
             (fun _ => Some "tmp1.pdf"%string)
             (fun _ _ => IO.Written)
             (fun _ _ => false) in
  let exe := Some "SumatraPDF.exe"%string in
  let s := IO.mkSystem (Win32.mkWorld None [] []) [] in
  let s1 := snd (IO.main_loop env ["a.pdf"%string] "front" "EPSON" exe s) in
  IO.main_loop env ["a.pdf"%string] "front" "EPSON" exe s = (IO.Done tt, s1)
  /\ IO.print_pdf env "b.pdf" "front" "EPSON" exe s1
     = (IO.Raised IO.PdfReadError, s1)
  /\ IO.main_loop env (["a.pdf"%string] ++ "b.pdf"%string :: ["c.pdf"%string])
                  "front" "EPSON" exe s
     = (IO.Raised IO.PdfReadError, s1).
Proof.
  cbv zeta.
  split; [ vm_compute; reflexivity | ].
  split; [ vm_compute; reflexivity | ].
  match goal with
  | |- _ = (_, ?x) => apply batch_stops_at_first_failure with (s1 := x)
  end.
  - vm_compute. reflexivity.
  - vm_compute. reflexivity.
Defined.

(** ** Both passes together *)

Lemma map_nth_seq (pre reader : list Page) (ref : Page) :
  map (fun k => nth k (pre ++ reader) ref) (seq (length pre) (length reader))
  = reader.
Proof.
  revert pre. induction reader as [ | page reader IH ]; intros pre;
    [ reflexivity | ].
  cbn [length seq map]. f_equal.
  - apply nth_middle.
  - specialize (IH (pre ++ [page])).
    rewrite <- app_assoc, length_app in IH. cbn [app length] in IH.
    replace (length pre + 1)%nat with (S (length pre)) in IH by lia.
    exact IH.
Qed.

Lemma pages_of_document (reader : list Page) (ref : Page) :
  map (page_of reader ref) (all_pages (Py.len reader)) = reader.
Proof.
  unfold all_pages, page_of, Py.len.
  rewrite Nat2Z.id, map_map, <- seq_shift, map_map.
  transitivity (map (fun k => nth k ([] ++ reader) ref)
                    (seq (length (@nil Page)) (length reader))).
  - apply map_ext. intros k. cbn [app]. f_equal. lia.
  - apply map_nth_seq.
Qed.

Lemma pages_on_app (d1 d2 : list Sheet) :
  pages_on (d1 ++ d2) = pages_on d1 ++ pages_on d2.
Proof. unfold pages_on. now rewrite map_app, concat_app. Qed.

(** X16.  Over the two passes every page of a document is printed exactly
    once: the pages on the sheets of the front document followed by those on
    the sheets of the back document are a rearrangement of the pages of the
    source document. *)
Theorem every_page_printed_once (ref : Page) (tail : list Page) :
  exists front back,
    print_pdf (ref :: tail) "front" = Py.Ok (Submitted front)
    /\ print_pdf (ref :: tail) "back" = Py.Ok (Submitted back)
    /\ Permutation (pages_on front ++ pages_on back) (ref :: tail).
Proof.
  set (reader := ref :: tail).
  assert (Hfront : print_pdf reader "front"
                   = Py.Ok (Submitted
                              (pair_up (page_of reader ref)
                                       (get_front_pages (Py.len reader))))).
  { assert (Hsel : select_pass (Py.len reader) "front"
                   = (get_front_pages (Py.len reader), false)) by reflexivity.
    destruct (print_pdf_submits _ _ _ _ Hsel (front_pages_nonempty ref tail))
      as (r & t & Hr & Hp).
    injection Hr as <- <-. now rewrite app_nil_r in Hp. }
  assert (Hback : exists blank,
             print_pdf reader "back"
             = Py.Ok (Submitted
                        (pair_up (page_of reader ref)
                                 (get_back_pages (Py.len reader)) ++ blank))
             /\ pages_on blank = []).
  { destruct (get_back_pages (Py.len reader)) as [ | p pages ] eqn:E.
    - exists [blank_sheet ref]. split; [ | reflexivity ].
      apply back_pages_nil_iff in E; [ | apply len_nonneg ].
      subst reader. destruct tail as [ | b [ | c tail ] ]; try reflexivity.
      exfalso. rewrite !len_cons in E. pose proof (len_nonneg tail). lia.
    - assert (Hsel : select_pass (Py.len reader) "back"
                     = (p :: pages, needs_back_blank (Py.len reader))).
      { unfold select_pass. cbn [String.eqb Ascii.eqb Bool.eqb andb].
        now rewrite E. }
      destruct (print_pdf_submits _ _ _ _ Hsel ltac:(discriminate))
        as (r & t & Hr & Hp).
      injection Hr as <- <-.
      exists (if needs_back_blank (Py.len reader)
              then [blank_sheet ref] else []).
      split; [ exact Hp | ].
      destruct (needs_back_blank (Py.len reader)); reflexivity. }
  destruct Hback as (blank & Hback & Hblank).
  eexists. eexists. split; [ exact Hfront | ]. split; [ exact Hback | ].
  rewrite pages_on_app, Hblank, app_nil_r, !pair_up_pages_on, <- map_app.
  apply Permutation_trans
    with (map (page_of reader ref) (all_pages (Py.len reader))).
  - apply Permutation_map, front_back_permutation, len_nonneg.
  - rewrite pages_of_document. apply Permutation_refl.
Qed.

(** X17.  [print_pdf] treats every side other than ["front"] as the back
    side when the back selection has pages, but prints the blank-only sheet
    of a one- or two-page document for the exact string ["back"] only: for
    any other string that pass is skipped. *)
Theorem other_side_strings (reader : list Page) (side : string) :
  side <> "front"%string -> side <> "back"%string ->
  (Py.len reader <= 2 -> print_pdf reader side = Py.Ok Skipped)
  /\ (2 < Py.len reader -> print_pdf reader side = print_pdf reader "back").
Proof.
  intros Hf Hb.
  apply String.eqb_neq in Hf. apply String.eqb_neq in Hb.
  pose proof (back_pages_nil_iff (Py.len reader) (len_nonneg reader)) as Hnil.
  split; intros Hlen.
  - unfold print_pdf, select_pass. cbv zeta. rewrite Hf, Hb.
    rewrite (proj2 Hnil Hlen). reflexivity.
  - unfold print_pdf, select_pass. cbv zeta. rewrite Hf.
    cbn [String.eqb Ascii.eqb Bool.eqb andb].
    destruct (get_back_pages (Py.len reader)) as [ | p pages ] eqn:E.
    + apply (back_pages_nil_iff _ (len_nonneg reader)) in E. lia.
    + reflexivity.
Qed.

Lemma other_side_strings_witness :
  let page := mkPage 595 842 1 in
  "Back"%string <> "front"%string
  /\ "Back"%string <> "back"%string
  /\ (Py.len [page] <= 2 -> print_pdf [page] "Back" = Py.Ok Skipped)
  /\ (2 < Py.len [page] -> print_pdf [page] "Back" = print_pdf [page] "back").
Proof.
  cbv zeta. split; [ discriminate | ]. split; [ discriminate | ].
  apply (other_side_strings [mkPage 595 842 1] "Back"); discriminate.
Defined.
